(** * African-Mineral: the query, aggregation and account core

    A shallow embedding of [modules/database.py], [modules/analytics.py] and
    [modules/auth.py], followed by the properties of the specification that
    concern them.

    Conventions of the embedding.
    - A Python [str] is a [string]: one [ascii] per code point, so the model
      covers text whose code points are below 256.
    - A Python [int] is a [Z]; a Python float (the coordinates, the average
      price) is a binary64 [float], and [int / int] is the correctly rounded
      quotient.
    - A [dict] whose iteration order is observable ([defaultdict(int)] fed to
      [sorted] or [max]) is an association list in insertion order; the
      static lookup tables are association lists read with [dict_get].
    - The JSON files the program writes and reads back are fields of a
      record; an absent file is [None].
    - [uuid.uuid4()], [datetime.now()] and SHA-256 are the environment: the
      k-th identifier and timestamp drawn are [uuid4 k] and [now k], and the
      digest is a function [hash_password], all three left abstract. *)

From Stdlib Require Import String Ascii List ZArith Bool Lia.
From Stdlib Require Import Permutation Sorted Floats OrdersEx RelationClasses.
Import ListNotations.

Open Scope string_scope.
Open Scope Z_scope.
Open Scope list_scope.

(* ===================================================================== *)
(** ** Python strings *)
(* ===================================================================== *)

Module PyStr.

(** [str.isspace] on one code point below 256: TAB..CR, FS..US, SPACE,
    NEL and NBSP. *)
Definition is_space (c : ascii) : bool :=
  let n := N_of_ascii c in
  (((9 <=? n) && (n <=? 13)) || ((28 <=? n) && (n <=? 32))
   || (n =? 133) || (n =? 160))%N.

(** [str.lower] on one code point below 256: A..Z and the accented capitals
    of Latin-1 (all of U+00C0..U+00DE but the multiplication sign) move up
    by 32. *)
Definition lower_char (c : ascii) : ascii :=
  let n := N_of_ascii c in
  if (((65 <=? n) && (n <=? 90))
      || ((192 <=? n) && (n <=? 222) && negb (n =? 215)))%N
  then ascii_of_N (n + 32) else c.

Fixpoint lower (s : string) : string :=
  match s with
  | EmptyString => EmptyString
  | String c s' => String (lower_char c) (lower s')
  end.

Fixpoint lstrip (s : string) : string :=
  match s with
  | EmptyString => EmptyString
  | String c s' => if is_space c then lstrip s' else s
  end.

Fixpoint rstrip (s : string) : string :=
  match s with
  | EmptyString => EmptyString
  | String c s' =>
      let r := rstrip s' in
      if is_space c && String.eqb r "" then "" else String c r
  end.

(** [s.strip()] *)
Definition strip (s : string) : string := rstrip (lstrip s).

(** [s.split(sep)] for a one-character separator: never empty, an empty
    piece for every leading, trailing or doubled separator. *)
Fixpoint split (sep : ascii) (s : string) : list string :=
  match s with
  | EmptyString => [""]
  | String c s' =>
      if Ascii.eqb c sep then "" :: split sep s'
      else match split sep s' with
           | t :: ts => String c t :: ts
           | [] => [String c ""]
           end
  end.

(** Truth value of a string that may be [None]: [None] and [''] are false. *)
Definition truthy (o : option string) : bool :=
  match o with
  | Some s => negb (String.eqb s "")
  | None => false
  end.

(** Number of occurrences of a character. *)
Fixpoint count_char (c : ascii) (s : string) : nat :=
  match s with
  | EmptyString => O
  | String d s' => (if Ascii.eqb d c then 1 else 0) + count_char c s'
  end.

End PyStr.

(* ===================================================================== *)
(** ** Dictionaries and sorting *)
(* ===================================================================== *)

Module PyDict.

Section Dict.
Context {V : Type}.

(** [d.get(k)] on a dict in insertion order. *)
Fixpoint dict_get (d : list (string * V)) (k : string) : option V :=
  match d with
  | [] => None
  | (k', v) :: d' => if String.eqb k' k then Some v else dict_get d' k
  end.

(** [k in d] *)
Definition dict_mem (d : list (string * V)) (k : string) : bool :=
  match dict_get d k with Some _ => true | None => false end.

End Dict.

(** [d[k] += v] on a [defaultdict(int)]: an existing key keeps its place, a
    new key starts from 0 and goes last. *)
Fixpoint dict_add (d : list (string * Z)) (k : string) (v : Z)
  : list (string * Z) :=
  match d with
  | [] => [(k, 0 + v)]
  | (k', w) :: d' =>
      if String.eqb k' k then (k', w + v) :: d'
      else (k', w) :: dict_add d' k v
  end.

Section Sorting.
Context {A : Type}.
Variable before : A -> A -> bool.

(** A stable sort, written as insertion from the right: [x], which stood
    in front of everything already sorted, goes in front of the first [y]
    it may precede.  Stability fixes the result of a sort by key, so this
    is what Python's [sorted] returns. *)
Fixpoint insert_by (x : A) (l : list A) : list A :=
  match l with
  | [] => [x]
  | y :: l' => if before x y then x :: l else y :: insert_by x l'
  end.

Definition sort_by (l : list A) : list A := fold_right insert_by [] l.

End Sorting.

(** [sorted(items, key=lambda x: x[1], reverse=True)]: descending by the
    second component, equal keys in their original order. *)
Definition sorted_by_value_desc (items : list (string * Z))
  : list (string * Z) :=
  sort_by (fun x y => snd y <=? snd x) items.

(** [sorted(strings)] *)
Definition sorted_str (l : list string) : list string :=
  sort_by String.leb l.

(** [list(set(l))]: the distinct elements (the order a set iterates in is
    not specified; every caller sorts the result). *)
Fixpoint distinct (l : list string) : list string :=
  match l with
  | [] => []
  | x :: l' =>
      if existsb (String.eqb x) l' then distinct l' else x :: distinct l'
  end.

(** [l[:n]] *)
Definition slice_to {A : Type} (l : list A) (n : Z) : list A :=
  if 0 <=? n then firstn (Z.to_nat n) l
  else firstn (length l - Z.to_nat (- n)) l.

(** [max(items, key=lambda x: x[1])]: the first item of greatest key;
    [None] stands for the ValueError on an empty sequence. *)
Fixpoint max_by_value (items : list (string * Z)) : option (string * Z) :=
  match items with
  | [] => None
  | x :: l =>
      match max_by_value l with
      | None => Some x
      | Some y => if snd x <? snd y then Some y else Some x
      end
  end.

(** [d[k1][k2] += v] on a [defaultdict(lambda: defaultdict(int))]. *)
Fixpoint nested_add (d : list (string * list (string * Z)))
  (k1 k2 : string) (v : Z) : list (string * list (string * Z)) :=
  match d with
  | [] => [(k1, dict_add [] k2 v)]
  | (k', inner) :: d' =>
      if String.eqb k' k1 then (k', dict_add inner k2 v) :: d'
      else (k', inner) :: nested_add d' k1 k2 v
  end.

End PyDict.

(* ===================================================================== *)
(** ** modules/database.py *)
(* ===================================================================== *)

Module Database.
Import PyStr PyDict.

(** One row of the spreadsheet: the columns ['Critical Mineral'],
    ['Primary African Producing Countries'] and ['Key Uses (Criticality)'],
    each holding text. *)
Record RawRow := {
  critical_mineral : string;
  producing_countries : string;
  key_uses : string
}.

Record MineralRecord := {
  id : string;
  mineral_name : string;
  country : string;
  uses : string;
  year : Z;
  production_volume : Z;
  reserves : Z;
  price : Z;
  unit : string;
  created_at : string
}.

Record Deposit := {
  d_id : string;
  d_mineral : string;
  d_location_name : string;
  d_country : string;
  d_latitude : float;
  d_longitude : float;
  d_reserves : Z;
  d_annual_production : Z;
  d_status : string
}.

(** [data/minerals.json] and [data/deposits.json]; [None] is a file that
    does not exist. *)
Record Files := {
  minerals_file : option (list MineralRecord);
  deposits_file : option (list Deposit)
}.

Definition production_data : list (string * list (string * Z)) :=
  [ ("Cobalt", [("DRC", 130000); ("Zambia", 5000); ("Morocco", 2000)]);
    ("Manganese",
       [("South Africa", 6200000); ("Gabon", 7000000); ("Ghana", 500000)]);
    ("Lithium", [("Zimbabwe", 1200); ("DRC", 800); ("Mali", 300)]);
    ("Copper",
       [("DRC", 1500000); ("Zambia", 800000); ("South Africa", 50000)]);
    ("Graphite (Natural)",
       [("Mozambique", 30000); ("Madagascar", 50000); ("Tanzania", 15000)]);
    ("Chromium", [("South Africa", 18000000); ("Zimbabwe", 900000)]) ].

Definition estimate_production (mineral country : string) : Z :=
  match dict_get production_data mineral with
  | Some by_country =>
      match dict_get by_country country with
      | Some v => v
      | None => 10000
      end
  | None => 10000
  end.

Definition estimate_reserves (mineral country : string) : Z :=
  let production := estimate_production mineral country in
  production * 75.

Definition prices : list (string * Z) :=
  [ ("Cobalt", 32000);
    ("Platinum-Group Metals (PGMs)", 850000);
    ("Manganese", 1800);
    ("Bauxite (for Aluminum)", 50);
    ("Graphite (Natural)", 1200);
    ("Lithium", 25000);
    ("Copper", 8500);
    ("Nickel", 18000);
    ("Chromium", 450);
    ("Uranium", 140000);
    ("Rare Earth Elements (REEs)", 75000) ].

Definition estimate_price (mineral : string) : Z :=
  match dict_get prices mineral with
  | Some p => p
  | None => 5000
  end.

(* The decimal literals below denote the nearest binary64 values, as in
   Python. *)
#[local] Set Warnings "-inexact-float".
Definition country_coords : list (string * (float * float)) :=
  [ ("DRC", (-4.0, 23.0)%float);
    ("South Africa", (-29.0, 25.0)%float);
    ("Zimbabwe", (-19.0, 29.8)%float);
    ("Zambia", (-13.1, 27.8)%float);
    ("Mozambique", (-18.6, 35.5)%float);
    ("Madagascar", (-19.0, 46.3)%float);
    ("Tanzania", (-6.3, 34.8)%float);
    ("Ghana", (7.9, -1.0)%float);
    ("Guinea", (9.9, -9.6)%float);
    ("Namibia", (-22.5, 17.0)%float);
    ("Gabon", (-0.8, 11.6)%float);
    ("Niger", (17.6, 8.0)%float);
    ("Morocco", (31.7, -7.0)%float) ].
#[local] Set Warnings "inexact-float".

Section Environment.
Variable uuid4 : nat -> string.
Variable now : nat -> string.

Definition mineral_record (k : nat) (mineral clean_country uses_ : string)
  : MineralRecord :=
  {| id := uuid4 k;
     mineral_name := mineral;
     country := clean_country;
     uses := uses_;
     year := 2024;
     production_volume := estimate_production mineral clean_country;
     reserves := estimate_reserves mineral clean_country;
     price := estimate_price mineral;
     unit := "tonnes";
     created_at := now k |}.

(** The inner loop of [load_excel_data]: one record per entry of
    [countries], appended to [minerals_data]; [k] counts the records made
    so far (the draws from [uuid4] and [now]). *)
Definition row_records (st : nat * list MineralRecord) (row : RawRow)
  : nat * list MineralRecord :=
  let mineral := critical_mineral row in
  let countries_str := producing_countries row in
  let uses_ := key_uses row in
  let countries := map strip (split "," countries_str) in
  fold_left
    (fun (acc : nat * list MineralRecord) country_ =>
       let '(k, minerals_data) := acc in
       let clean_country := strip (hd "" (split "(" country_)) in
       (S k, minerals_data ++ [mineral_record k mineral clean_country uses_]))
    countries st.

(** The outer loop of [load_excel_data] over the rows of the sheet. *)
Definition normalize (df : list RawRow) : nat * list MineralRecord :=
  fold_left row_records df (O, []).

(** The loop of [create_sample_deposits]; identifiers go on from the
    [k] already drawn. *)
Definition row_deposit (st : nat * list Deposit) (row : RawRow)
  : nat * list Deposit :=
  let '(k, deposits) := st in
  let mineral := critical_mineral row in
  let countries_str := producing_countries row in
  let first_country :=
    strip (hd "" (split "(" (hd "" (split "," countries_str)))) in
  match dict_get country_coords first_country with
  | Some coords =>
      (S k,
       deposits ++
       [ {| d_id := uuid4 k;
            d_mineral := mineral;
            d_location_name :=
              (mineral ++ " Deposit - " ++ first_country)%string;
            d_country := first_country;
            d_latitude := fst coords;
            d_longitude := snd coords;
            d_reserves := estimate_reserves mineral first_country;
            d_annual_production := estimate_production mineral first_country;
            d_status := "Active" |} ])
  | None => (k, deposits)
  end.

Definition create_sample_deposits (k : nat) (df : list RawRow)
  : list Deposit :=
  snd (fold_left row_deposit df (k, [])).

Definition create_empty_json_files (fs : Files) : Files :=
  {| minerals_file :=
       match minerals_file fs with Some l => Some l | None => Some [] end;
     deposits_file :=
       match deposits_file fs with Some l => Some l | None => Some [] end |}.

(** [load_excel_data]: [excel] is the sheet, [None] when the workbook is
    missing or cannot be read. *)
Definition load_excel_data (excel : option (list RawRow)) (fs : Files)
  : Files :=
  match excel with
  | None => create_empty_json_files fs
  | Some df =>
      let '(k, minerals_data) := normalize df in
      {| minerals_file := Some minerals_data;
         deposits_file := Some (create_sample_deposits k df) |}
  end.

End Environment.

(** [load_json] answers [[]] when the file cannot be read. *)
Definition get_all_minerals (fs : Files) : list MineralRecord :=
  match minerals_file fs with Some l => l | None => [] end.

Definition get_unique_countries (fs : Files) : list string :=
  sorted_str (distinct (map country (get_all_minerals fs))).

Definition count_countries (fs : Files) : Z :=
  Z.of_nat (length (get_unique_countries fs)).

(** The [filters] dict: a key that is absent is [None]. *)
Record Filters := {
  f_mineral_name : option string;
  f_country : option string
}.

Definition no_filters : Filters :=
  {| f_mineral_name := None; f_country := None |}.

(** [not filters]: [None] or the empty dict. *)
Definition filters_falsy (filters : option Filters) : bool :=
  match filters with
  | None => true
  | Some f =>
      match f_mineral_name f, f_country f with
      | None, None => true
      | _, _ => false
      end
  end.

(** The body of the loop of [search_minerals] for one record. *)
Definition search_step (f : Filters) (results : list MineralRecord)
  (mineral : MineralRecord) : list MineralRecord :=
  let match_ := true in
  let match_ :=
    if truthy (f_mineral_name f) then
      match f_mineral_name f with
      | Some v =>
          if negb (String.eqb (lower (mineral_name mineral)) (lower v))
          then false else match_
      | None => match_
      end
    else match_ in
  let match_ :=
    if truthy (f_country f) then
      match f_country f with
      | Some v =>
          if negb (String.eqb (lower (country mineral)) (lower v))
          then false else match_
      | None => match_
      end
    else match_ in
  if match_ then results ++ [mineral] else results.

Definition search_minerals (fs : Files) (filters : option Filters)
  : list MineralRecord :=
  let minerals := get_all_minerals fs in
  if filters_falsy filters then minerals
  else
    match filters with
    | Some f => fold_left (search_step f) minerals []
    | None => minerals
    end.

Definition get_unique_mineral_names (fs : Files) : list string :=
  sorted_str (distinct (map mineral_name (get_all_minerals fs))).

Definition get_minerals_by_country (fs : Files) (country_ : string)
  : list MineralRecord :=
  search_minerals fs
    (Some {| f_mineral_name := None; f_country := Some country_ |}).

(** [load_json(self.deposits_file)] *)
Definition get_all_deposits (fs : Files) : list Deposit :=
  match deposits_file fs with Some l => l | None => [] end.

(** The body of the loop of [get_deposits] for one deposit; [a and b]
    looks at [b] only when [a] is true. *)
Definition deposits_step (mineral country_ : option string)
  (results : list Deposit) (deposit : Deposit) : list Deposit :=
  let match_ := true in
  let match_ :=
    match mineral with
    | Some v =>
        if truthy mineral
           && negb (String.eqb (lower (d_mineral deposit)) (lower v))
        then false else match_
    | None => match_
    end in
  let match_ :=
    match country_ with
    | Some v =>
        if truthy country_
           && negb (String.eqb (lower (d_country deposit)) (lower v))
        then false else match_
    | None => match_
    end in
  if match_ then results ++ [deposit] else results.

(** [get_deposits(mineral=None, country=None)] *)
Definition get_deposits (fs : Files) (mineral country_ : option string)
  : list Deposit :=
  let deposits := get_all_deposits fs in
  if negb (truthy mineral) && negb (truthy country_) then deposits
  else fold_left (deposits_step mineral country_) deposits [].

Definition count_minerals (fs : Files) : Z :=
  Z.of_nat (length (get_all_minerals fs)).

Definition count_deposits (fs : Files) : Z :=
  Z.of_nat (length (get_all_deposits fs)).

End Database.

(* ===================================================================== *)
(** ** modules/analytics.py *)
(* ===================================================================== *)

Module Analytics.
Import PyStr PyDict Database.

(** [sum(...)] over integers. *)
Definition py_sum (l : list Z) : Z := fold_left Z.add l 0.

(** A number that is an [int] or a [float]. *)
Inductive number :=
  | PyInt (n : Z)
  | PyFloat (x : float).

(** An integer as an unrounded binary number. *)
Definition of_int (n : Z) : spec_float :=
  match n with
  | Z0 => S754_zero false
  | Zpos p => S754_finite false p 0
  | Zneg p => S754_finite true p 0
  end.

(** [a / b] on integers: the binary64 float nearest to the exact quotient
    (ties to even, the sign kept on a zero).  [None] stands for the
    exception: ZeroDivisionError for a zero divisor, and otherwise
    OverflowError, raised when the rounded quotient is beyond the largest
    float. *)
Definition truediv (a b : Z) : option float :=
  match b with
  | Z0 => None
  | _ =>
      match SFdiv prec emax (of_int a) (of_int b) with
      | S754_infinity _ | S754_nan => None
      | q => Some (SF2Prim q)
      end
  end.

(** The loop [for m in ...: country_production[m['country']] +=
    m['production_volume']] on a fresh [defaultdict(int)]. *)
Definition country_production (minerals : list MineralRecord)
  : list (string * Z) :=
  fold_left (fun d m => dict_add d (country m) (production_volume m))
            minerals [].

(** [generate_production_by_country] up to [sorted_data], the pairs the bar
    chart is drawn from ([countries] and [production] are its two columns);
    [None] is the [return None] of the function. *)
Definition generate_production_by_country (fs : Files) (mineral : string)
  : option (list (string * Z)) :=
  let minerals :=
    search_minerals fs
      (Some {| f_mineral_name := Some mineral; f_country := None |}) in
  match minerals with
  | [] => None
  | _ :: _ => Some (sorted_by_value_desc (country_production minerals))
  end.

(** [generate_top_producers] up to [sorted_data]; [limit] is 10 when the
    caller gives none. *)
Definition generate_top_producers (fs : Files) (limit : Z)
  : list (string * Z) :=
  let all_minerals := get_all_minerals fs in
  slice_to (sorted_by_value_desc (country_production all_minerals)) limit.

Record Stats := {
  total_production : Z;
  total_reserves : Z;
  avg_price : number;
  top_producer : string;
  top_producer_volume : Z
}.

(** [get_summary_statistics]; [None] is an exception escaping it. *)
Definition get_summary_statistics (fs : Files) : option Stats :=
  let all_minerals := get_all_minerals fs in
  let total_production_ := py_sum (map production_volume all_minerals) in
  let total_reserves_ := py_sum (map reserves all_minerals) in
  match
    (match all_minerals with
     | _ :: _ =>
         match truediv (py_sum (map price all_minerals))
                       (Z.of_nat (length all_minerals)) with
         | Some x => Some (PyFloat x)
         | None => None
         end
     | [] => Some (PyInt 0)
     end)
  with
  | None => None
  | Some avg_price_ =>
      let cp := country_production all_minerals in
      match
        (match cp with
         | _ :: _ => max_by_value cp
         | [] => Some ("N/A", 0)
         end)
      with
      | None => None
      | Some top =>
          Some {| total_production := total_production_;
                  total_reserves := total_reserves_;
                  avg_price := avg_price_;
                  top_producer := fst top;
                  top_producer_volume := snd top |}
      end
  end.

(** [generate_market_share_pie] up to the two columns the pie is drawn
    from, [countries] and [production]: the keys and the values of the
    dict in its own order. *)
Definition generate_market_share_pie (fs : Files) (mineral : string)
  : option (list string * list Z) :=
  let minerals :=
    search_minerals fs
      (Some {| f_mineral_name := Some mineral; f_country := None |}) in
  match minerals with
  | [] => None
  | _ :: _ =>
      let cp := country_production minerals in
      Some (map fst cp, map snd cp)
  end.

(** [generate_reserves_comparison] up to the traces of the stacked bar
    chart: for each mineral its name, the countries (the names as the
    caller gave them) and the reserves; [None] is the [return None] for an
    empty list of countries. *)
Definition generate_reserves_comparison (fs : Files) (countries : list string)
  : option (list (string * list string * list Z)) :=
  match countries with
  | [] => None
  | _ :: _ =>
      let mineral_data :=
        fold_left
          (fun md country_ =>
             let minerals := get_minerals_by_country fs country_ in
             fold_left
               (fun md m =>
                  nested_add md (mineral_name m) country_ (reserves m))
               minerals md)
          countries [] in
      Some (map (fun entry =>
                   let country_reserves := snd entry in
                   (fst entry, map fst country_reserves,
                    map snd country_reserves))
                mineral_data)
  end.

End Analytics.

(* ===================================================================== *)
(** ** modules/auth.py *)
(* ===================================================================== *)

Module Auth.
Import PyStr PyDict.

Record User := {
  id : string;
  username : string;
  password : string;
  email : string;
  role : string;
  created_at : string
}.

(** The ['user'] entry of a successful login. *)
Record UserInfo := {
  i_id : string;
  i_username : string;
  i_email : string;
  i_role : string
}.

Record Result := {
  success : bool;
  message : string;
  user : option UserInfo
}.

Definition failure (msg : string) : Result :=
  {| success := false; message := msg; user := None |}.

Definition role_permissions : list (string * list string) :=
  [ ("Administrator",
       ["view_all"; "edit_all"; "delete_all"; "manage_users"; "export_data"]);
    ("Investor", ["view_all"; "view_analytics"; "export_data"]);
    ("Researcher", ["view_all"; "view_analytics"; "download_reports"]) ].

Definition check_permission (role_ permission : string) : bool :=
  match dict_get role_permissions role_ with
  | None => false
  | Some perms => existsb (String.eqb permission) perms
  end.

Section Environment.
Variable hash_password : string -> string.
Variable uuid4 : nat -> string.
Variable now : nat -> string.

(** [register]: [users] is the content of [users.json], [k] the number of
    accounts created so far in this run; the answer comes with the content
    of the file afterwards.  A field the caller holds no value for is
    [None]; [role_ = None] is a call that leaves the parameter out. *)
Definition register (users : list User) (k : nat)
  (username_ password_ email_ : option string) (role_ : option string)
  : Result * list User :=
  let role_ := match role_ with Some r => r | None => "Researcher" end in
  if negb (truthy username_) || negb (truthy password_)
     || negb (truthy email_)
  then (failure "All fields are required", users)
  else
    match username_, password_, email_ with
    | Some un, Some pw, Some em =>
        if existsb (fun u => String.eqb (lower (username u)) (lower un)) users
        then (failure "Username already exists", users)
        else
          let new_user :=
            {| id := uuid4 k;
               username := un;
               password := hash_password pw;
               email := em;
               role := role_;
               created_at := now k |} in
          ({| success := true;
              message := "User registered successfully";
              user := None |},
           users ++ [new_user])
    | _, _, _ => (failure "All fields are required", users)
    end.

(** [login] *)
Definition login (users : list User) (username_ password_ : option string)
  : Result :=
  if negb (truthy username_) || negb (truthy password_)
  then failure "Username and password required"
  else
    match username_, password_ with
    | Some un, Some pw =>
        match
          find (fun u => String.eqb (lower (username u)) (lower un)) users
        with
        | None => failure "Invalid username or password"
        | Some u =>
            if negb (String.eqb (hash_password pw) (password u))
            then failure "Invalid username or password"
            else
              {| success := true;
                 message := "Login successful";
                 user := Some {| i_id := id u;
                                 i_username := username u;
                                 i_email := email u;
                                 i_role := role u |} |}
        end
    | _, _ => failure "Username and password required"
    end.

(** The accounts [ensure_file_exists] writes when there is no file. *)
Definition default_users : list User :=
  [ {| id := uuid4 0;
       username := "admin";
       password := hash_password "admin123";
       email := "admin@chronominerals.com";
       role := "Administrator";
       created_at := now 0 |};
    {| id := uuid4 1;
       username := "investor1";
       password := hash_password "investor123";
       email := "investor@example.com";
       role := "Investor";
       created_at := now 1 |};
    {| id := uuid4 2;
       username := "researcher1";
       password := hash_password "research123";
       email := "researcher@example.com";
       role := "Researcher";
       created_at := now 2 |} ].

(** [ensure_file_exists]: the content of [users.json] afterwards;
    [None] is a file that does not exist. *)
Definition ensure_file_exists (users_file : option (list User))
  : list User :=
  match users_file with
  | Some users => users
  | None => default_users
  end.

End Environment.

End Auth.

(* ===================================================================== *)
(** ** modules/visualization.py *)
(* ===================================================================== *)

Module Visualization.
Import PyDict.

Definition mineral_colors : list (string * string) :=
  [ ("Cobalt", "blue");
    ("Platinum-Group Metals (PGMs)", "purple");
    ("Manganese", "darkpurple");
    ("Bauxite (for Aluminum)", "lightgray");
    ("Graphite (Natural)", "gray");
    ("Lithium", "lightblue");
    ("Copper", "orange");
    ("Nickel", "green");
    ("Chromium", "darkgreen");
    ("Uranium", "red");
    ("Rare Earth Elements (REEs)", "pink") ].

Definition get_mineral_color (mineral : string) : string :=
  match dict_get mineral_colors mineral with
  | Some c => c
  | None => "gray"
  end.

Definition color_map : list (string * string) :=
  [ ("blue", "#3186cc");
    ("purple", "#8e44ad");
    ("darkpurple", "#5b2c6f");
    ("lightgray", "#a0a0a0");
    ("gray", "#7f8c8d");
    ("lightblue", "#5dade2");
    ("orange", "#e67e22");
    ("green", "#27ae60");
    ("darkgreen", "#196f3d");
    ("red", "#e74c3c");
    ("pink", "#f1948a") ].

Definition _get_folium_color (color_name : string) : string :=
  match dict_get color_map color_name with
  | Some c => c
  | None => "#95a5a6"
  end.

End Visualization.

(* ===================================================================== *)
(** ** app.py *)
(* ===================================================================== *)

Module App.
Import PyStr PyDict Database.

(** What a view function returns: a redirect to an endpoint, after a
    message was flashed with its category, or a template rendered with its
    context. *)
Inductive Response (A : Type) :=
  | Redirect (flashed : string * string) (endpoint : string)
  | Render (template : string) (context : A).
Arguments Redirect {A} flashed endpoint.
Arguments Render {A} template context.

(** The decorator [login_required]; [session] is the session of the
    request, a dict. *)
Definition login_required {A : Type} (session : list (string * string))
  (f : Datatypes.unit -> Response A) : Response A :=
  if negb (dict_mem session "user_id")
  then Redirect ("Please log in to access this page.", "warning") "login"
  else f tt.

(** The context of [minerals.html]. *)
Record MineralsPage := {
  page_minerals : list MineralRecord;
  all_minerals : list string;
  all_countries : list string;
  selected_mineral : option string;
  selected_country : option string
}.

(** The [/minerals] route; [mineral_filter] and [country_filter] are the
    query parameters, [None] when the request has none. *)
Definition minerals (session : list (string * string)) (fs : Files)
  (mineral_filter country_filter : option string) : Response MineralsPage :=
  login_required session (fun _ =>
    let filters := no_filters in
    let filters :=
      if truthy mineral_filter
      then {| f_mineral_name := mineral_filter;
              f_country := f_country filters |}
      else filters in
    let filters :=
      if truthy country_filter
      then {| f_mineral_name := f_mineral_name filters;
              f_country := country_filter |}
      else filters in
    let mineral_data := search_minerals fs (Some filters) in
    Render "minerals.html"
      {| page_minerals := mineral_data;
         all_minerals := get_unique_mineral_names fs;
         all_countries := get_unique_countries fs;
         selected_mineral := mineral_filter;
         selected_country := country_filter |}).

Record CountryEntry := {
  name : string;
  mineral_count : Z;
  total_records : Z
}.

(** The [/countries] route; the context of [countries.html] is
    [country_data]. *)
Definition countries (session : list (string * string)) (fs : Files)
  : Response (list CountryEntry) :=
  login_required session (fun _ =>
    let all_countries_ := get_unique_countries fs in
    let country_data :=
      fold_left
        (fun country_data country_ =>
           let minerals_ := get_minerals_by_country fs country_ in
           let unique_minerals := distinct (map mineral_name minerals_) in
           country_data ++
           [ {| name := country_;
                mineral_count := Z.of_nat (length unique_minerals);
                total_records := Z.of_nat (length minerals_) |} ])
        all_countries_ [] in
    Render "countries.html" country_data).

End App.

(* ===================================================================== *)
(** ** The specification's wording of the queries *)
(* ===================================================================== *)

Module Spec.
Import PyStr PyDict Database Analytics.

(** "Case-insensitive exact match on each provided field; fields present
    in the filter must match exactly, absent fields impose no
    constraint." *)
Definition field_matches (wanted : option string) (actual : string) : bool :=
  match wanted with
  | Some v => String.eqb (lower actual) (lower v)
  | None => true
  end.

Definition matches (f : Filters) (m : MineralRecord) : bool :=
  field_matches (f_mineral_name f) (mineral_name m)
  && field_matches (f_country f) (country m).

Definition search (all : list MineralRecord) (f : Filters)
  : list MineralRecord :=
  filter (matches f) all.

(** What the code asks of a field instead: a value that is present and not
    empty must match, anything else imposes no constraint. *)
Definition field_accepts (wanted : option string) (actual : string) : bool :=
  match wanted with
  | Some v => String.eqb v "" || String.eqb (lower actual) (lower v)
  | None => true
  end.

Definition accepts (f : Filters) (m : MineralRecord) : bool :=
  field_accepts (f_mineral_name f) (mineral_name m)
  && field_accepts (f_country f) (country m).

(** The summed production of one country over a list of records. *)
Definition total_of (rs : list MineralRecord) (c : string) : Z :=
  py_sum (map production_volume
              (filter (fun m => String.eqb (country m) c) rs)).

(** The distinct strings of a list in the order of their first
    occurrence. *)
Fixpoint first_seen (l : list string) : list string :=
  match l with
  | [] => []
  | x :: l' => x :: filter (fun y => negb (String.eqb y x)) (first_seen l')
  end.

(** "Sum [productionVolume] grouped by [country]": one pair per country,
    countries in the order the records introduce them. *)
Definition groups (rs : list MineralRecord) : list (string * Z) :=
  map (fun c => (c, total_of rs c)) (first_seen (map country rs)).

(** "Sorted descending by summed production (ties broken by country name
    ascending)". *)
Definition ranks_before (x y : string * Z) : bool :=
  (snd y <? snd x) || ((snd x =? snd y) && String.leb (fst x) (fst y)).

(** "Filter records by [mineralName == mineral], sum [productionVolume]
    grouped by [country], return pairs sorted descending by summed
    production (ties broken by country name ascending); empty result if no
    matching records." *)
Definition productionByCountry (all : list MineralRecord) (mineral : string)
  : list (string * Z) :=
  sort_by ranks_before
    (groups (filter (fun m => String.eqb (mineral_name m) mineral) all)).

(** Descending by total, nothing said about ties. *)
Definition descending (l : list (string * Z)) : Prop :=
  StronglySorted (fun x y => snd y <= snd x) l.

(** The pairs of [l] whose total is [t], in the order [l] has them. *)
Definition with_total (t : Z) (l : list (string * Z)) : list (string * Z) :=
  filter (fun x => snd x =? t) l.

(** The known role set. *)
Definition known_roles : list string :=
  ["Administrator"; "Investor"; "Researcher"].

(** The one message of an authentication failure. *)
Definition generic_failure : Auth.Result :=
  Auth.failure "Invalid username or password".

(** A name no account of the store answers to, and a name some account
    answers to while the digest of the password offered differs from the
    one stored with every such account. *)
Definition unknown_username (users : list Auth.User) (un : string) : Prop :=
  forall u, In u users -> lower (Auth.username u) <> lower un.

Definition wrong_password (hash_password : string -> string)
  (users : list Auth.User) (un pw : string) : Prop :=
  (exists u, In u users /\ lower (Auth.username u) = lower un)
  /\ forall u, In u users -> lower (Auth.username u) = lower un ->
               hash_password pw <> Auth.password u.

(** Canonicalization of one comma-separated piece: trimmed, cut at the
    first opening parenthesis, trimmed again. *)
Definition canonical (tok : string) : string :=
  strip (hd "" (split "(" (strip tok))).

(** The country the Normalizer gives the first record of a row. *)
Definition first_normalized_country (row : RawRow) : string :=
  hd "" (map country
             (snd (row_records (fun _ => "") (fun _ => "") (O, []) row))).

(** What the bars of a stacked chart add up to. *)
Definition chart_total (traces : list (string * list string * list Z)) : Z :=
  py_sum (map (fun trace => py_sum (snd trace)) traces).

End Spec.

(* ===================================================================== *)
(** ** Sample data *)
(* ===================================================================== *)

Module Examples.
Import PyStr PyDict Database.

(** A run of the environment: identifiers "0", "1", ..., a clock that
    stands still, and a stand-in for the digest that keeps different
    passwords apart. *)
Definition ids (k : nat) : string := String (ascii_of_nat (48 + k)) "".
Definition clock (k : nat) : string := "2024-01-01T00:00:00".
Definition digest (pw : string) : string := ("sha256:" ++ pw)%string.

Definition no_files : Files :=
  {| minerals_file := None; deposits_file := None |}.

Definition cobalt_row : RawRow :=
  {| critical_mineral := "Cobalt";
     producing_countries := "DRC, Zambia (est.), Morocco";
     key_uses := "Batteries" |}.

(** A row whose first country, Mali, has no coordinates, while its second
    has. *)
Definition lithium_row : RawRow :=
  {| critical_mineral := "Lithium";
     producing_countries := "Mali (emerging), DRC";
     key_uses := "Batteries" |}.

(** The record set {DRC: 130000, Zambia: 5000} of Cobalt. *)
Definition cobalt_sheet : list RawRow :=
  [ {| critical_mineral := "Cobalt";
       producing_countries := "DRC, Zambia";
       key_uses := "Batteries" |} ].

Definition cobalt_files : Files :=
  load_excel_data ids clock (Some cobalt_sheet) no_files.

Definition cobalt_drc : MineralRecord :=
  mineral_record ids clock 0 "Cobalt" "DRC" "Batteries".

(** Nickel in two countries the production table does not list, so that
    both records get the default volume 10000. *)
Definition nickel_sheet : list RawRow :=
  [ {| critical_mineral := "Nickel";
       producing_countries := "South Africa, Madagascar";
       key_uses := "Stainless steel" |} ].

Definition nickel_files : Files :=
  load_excel_data ids clock (Some nickel_sheet) no_files.

(** A filter whose mineral name is present and empty. *)
Definition empty_name_filter : Filters :=
  {| f_mineral_name := Some ""; f_country := None |}.

Definition admin : Auth.User :=
  {| Auth.id := "0";
     Auth.username := "admin";
     Auth.password := digest "admin123";
     Auth.email := "admin@chronominerals.com";
     Auth.role := "Administrator";
     Auth.created_at := "2024-01-01T00:00:00" |}.

(** A store holding the one account [admin], and the arguments of a
    registration of "eve". *)
Definition one_user : list Auth.User := [admin].

Definition eve_registered : list Auth.User :=
  snd (Auth.register digest ids clock one_user 1
         (Some "eve") (Some "secret") (Some "eve@example.com") None).

(** A record set with one record whose price, a 1 followed by 400 zeros,
    is beyond the largest float. *)
Definition priceless_files : Files :=
  {| minerals_file :=
       Some [ {| id := "0"; mineral_name := "Unobtainium";
                 country := "DRC"; uses := ""; year := 2024;
                 production_volume := 1; reserves := 75;
                 price := 10 ^ 400; unit := "tonnes";
                 created_at := "2024-01-01T00:00:00" |} ];
     deposits_file := None |}.

(** The summary of [cobalt_files]. *)
Definition cobalt_stats : Analytics.Stats :=
  {| Analytics.total_production := 135000;
     Analytics.total_reserves := 10125000;
     Analytics.avg_price := Analytics.PyFloat 32000;
     Analytics.top_producer := "DRC";
     Analytics.top_producer_volume := 130000 |}.

(** The session of a visitor who has logged in as [admin], and the session
    of one who has not. *)
Definition admin_session : list (string * string) :=
  [("user_id", "0"); ("username", "admin"); ("role", "Administrator")].

Definition no_session : list (string * string) := [].

End Examples.

(* ===================================================================== *)
(** * Properties *)
(* ===================================================================== *)

(** ** Strings *)

Section StringFacts.
Import PyStr.

Lemma split_cons (sep : ascii) (s : string) :
  exists t ts, split sep s = t :: ts.
Proof.
  induction s as [|c s IH]; simpl.
  - now exists "", [].
  - destruct (Ascii.eqb c sep).
    + now exists "", (split sep s).
    + destruct IH as (t & ts & ->). now exists (String c t), ts.
Qed.

Lemma hd_split_step (sep c : ascii) (s : string) :
  hd "" (split sep (String c s))
  = if Ascii.eqb c sep then "" else String c (hd "" (split sep s)).
Proof.
  simpl. destruct (Ascii.eqb c sep); [reflexivity|].
  destruct (split_cons sep s) as (t & ts & ->). reflexivity.
Qed.

Lemma length_split (sep : ascii) (s : string) :
  length (split sep s) = S (count_char sep s).
Proof.
  induction s as [|c s IH]; simpl; [reflexivity|].
  destruct (Ascii.eqb c sep); simpl.
  - now rewrite IH.
  - destruct (split_cons sep s) as (t & ts & E).
    rewrite E in *. simpl in *. exact IH.
Qed.

Lemma concat_cons2 (sep x t : string) (ts : list string) :
  String.concat sep (x :: t :: ts)
  = (x ++ sep ++ String.concat sep (t :: ts))%string.
Proof. reflexivity. Qed.

Lemma concat_split (sep : ascii) (s : string) :
  String.concat (String sep "") (split sep s) = s.
Proof.
  induction s as [|c s IH]; [reflexivity|]. cbn [split].
  destruct (split_cons sep s) as (t & ts & E). rewrite E in *.
  destruct (Ascii.eqb_spec c sep) as [->|N].
  - rewrite concat_cons2, IH. reflexivity.
  - destruct ts as [|t' ts].
    + cbn in *. now rewrite IH.
    + rewrite concat_cons2 in *. rewrite <- IH. reflexivity.
Qed.

Lemma split_no_sep (sep : ascii) (s : string) :
  Forall (fun t => count_char sep t = O) (split sep s).
Proof.
  induction s as [|c s IH]; simpl.
  - now repeat constructor.
  - destruct (Ascii.eqb c sep) eqn:E.
    + constructor; [reflexivity | exact IH].
    + destruct (split_cons sep s) as (t & ts & Es). rewrite Es in *.
      inversion IH; subst. constructor; [|assumption].
      simpl. now rewrite E.
Qed.

Lemma eqb_empty_iff (s : string) : String.eqb s "" = true <-> s = "".
Proof. apply String.eqb_eq. Qed.

Lemma lstrip_idem (s : string) : lstrip (lstrip s) = lstrip s.
Proof.
  induction s as [|c s IH]; simpl; [reflexivity|].
  destruct (is_space c) eqn:E; [exact IH|]. simpl. now rewrite E.
Qed.

Lemma rstrip_idem (s : string) : rstrip (rstrip s) = rstrip s.
Proof.
  induction s as [|c s IH]; simpl; [reflexivity|].
  destruct (is_space c && String.eqb (rstrip s) "") eqn:E; [reflexivity|].
  simpl. rewrite IH, E. reflexivity.
Qed.

Lemma lstrip_rstrip (s : string) : lstrip (rstrip s) = rstrip (lstrip s).
Proof.
  induction s as [|c s IH]; simpl; [reflexivity|].
  destruct (is_space c) eqn:Ec; simpl.
  - destruct (String.eqb (rstrip s) "") eqn:Er; simpl.
    + apply eqb_empty_iff in Er. rewrite <- IH, Er. reflexivity.
    + rewrite Ec. exact IH.
  - now rewrite Ec.
Qed.

Lemma strip_idem (s : string) : strip (strip s) = strip s.
Proof.
  unfold strip.
  now rewrite lstrip_rstrip, rstrip_idem, lstrip_idem.
Qed.

(** Cutting at the first [sep] commutes with trimming on the left, and
    trimming on the right first changes nothing once the cut is trimmed,
    provided [sep] is not white space. *)
Lemma cut_lstrip (sep : ascii) (s : string) :
  is_space sep = false ->
  hd "" (split sep (lstrip s)) = lstrip (hd "" (split sep s)).
Proof.
  intros Hsep. induction s as [|c s IH]; [reflexivity|].
  cbn [lstrip]. destruct (is_space c) eqn:Ec.
  - rewrite (hd_split_step sep c s).
    destruct (Ascii.eqb_spec c sep) as [->|N]; [congruence|].
    cbn [lstrip]. now rewrite Ec.
  - rewrite (hd_split_step sep c s).
    destruct (Ascii.eqb c sep); [reflexivity|].
    cbn [lstrip]. now rewrite Ec.
Qed.

Lemma cut_rstrip (sep : ascii) (s : string) :
  is_space sep = false ->
  rstrip (hd "" (split sep (rstrip s))) = rstrip (hd "" (split sep s)).
Proof.
  intros Hsep. induction s as [|c s IH]; [reflexivity|].
  rewrite (hd_split_step sep c s). cbn [rstrip].
  destruct (Ascii.eqb_spec c sep) as [->|N].
  - rewrite Hsep. cbn [andb]. rewrite hd_split_step, Ascii.eqb_refl.
    reflexivity.
  - destruct (is_space c && String.eqb (rstrip s) "") eqn:E.
    + apply andb_true_iff in E. destruct E as [Ec Er].
      apply eqb_empty_iff in Er. rewrite Er in IH. cbn in IH.
      cbn [rstrip]. rewrite <- IH, Ec. reflexivity.
    + rewrite hd_split_step.
      destruct (Ascii.eqb_spec c sep) as [->|_]; [congruence|].
      cbn [rstrip]. now rewrite IH.
Qed.

Lemma strip_cut_strip (sep : ascii) (s : string) :
  is_space sep = false ->
  strip (hd "" (split sep (strip s))) = strip (hd "" (split sep s)).
Proof.
  intros Hsep. unfold strip.
  rewrite <- (lstrip_rstrip (hd "" (split sep (rstrip (lstrip s))))).
  rewrite (cut_rstrip sep (lstrip s) Hsep), lstrip_rstrip.
  now rewrite (cut_lstrip sep s Hsep), lstrip_idem.
Qed.

Lemma count_char_lstrip (c : ascii) (s : string) :
  count_char c s = O -> count_char c (lstrip s) = O.
Proof.
  induction s as [|d s IH]; simpl; [easy|].
  destruct (is_space d); simpl; [|easy].
  destruct (Ascii.eqb d c); simpl; [discriminate | exact IH].
Qed.

Lemma count_char_rstrip (c : ascii) (s : string) :
  count_char c s = O -> count_char c (rstrip s) = O.
Proof.
  induction s as [|d s IH]; simpl; [easy|].
  destruct (Ascii.eqb d c) eqn:E; simpl; [discriminate|].
  intros H. destruct (is_space d && String.eqb (rstrip s) ""); simpl.
  - reflexivity.
  - rewrite E. simpl. now apply IH.
Qed.

Lemma count_char_cut (sep : ascii) (s : string) :
  count_char sep (hd "" (split sep s)) = O.
Proof.
  pose proof (split_no_sep sep s) as H.
  destruct (split_cons sep s) as (t & ts & E). rewrite E in *.
  now inversion H.
Qed.

End StringFacts.

(** ** Lists and dictionaries *)

Section ListFacts.
Import PyDict.

Lemma map_snd_combine_seq {A : Type} (l : list A) (k : nat) :
  map snd (combine (seq k (length l)) l) = l.
Proof.
  revert k. induction l as [|x l IH]; intros k; simpl; [reflexivity|].
  now rewrite IH.
Qed.

(** A loop that draws a fresh index and appends one item per element. *)
Lemma fold_left_emit {A B : Type} (g : nat -> A -> B) (cs : list A)
  (k : nat) (data : list B) :
  fold_left (fun (st : nat * list B) c =>
               let '(k, data) := st in (S k, data ++ [g k c])) cs (k, data)
  = ((k + length cs)%nat,
     data ++ map (fun p => g (fst p) (snd p)) (combine (seq k (length cs)) cs)).
Proof.
  revert k data. induction cs as [|c cs IH]; intros k data; simpl.
  - now rewrite Nat.add_0_r, app_nil_r.
  - rewrite IH, <- app_assoc. simpl. f_equal. lia.
Qed.

Lemma dict_get_In {V : Type} (d : list (string * V)) (k : string) (v : V) :
  dict_get d k = Some v -> In (k, v) d.
Proof.
  induction d as [|[k' w] d IH]; simpl; [discriminate|].
  destruct (String.eqb_spec k' k) as [->|N].
  - intros [= ->]. now left.
  - intros H. right. now apply IH.
Qed.

End ListFacts.

(** ** The Normalizer and the Deposit Synthesizer *)

Section DatabaseFacts.
Import PyStr PyDict Database.
Variable uuid4 : nat -> string.
Variable now : nat -> string.

Lemma row_records_eq (st : nat * list MineralRecord) (row : RawRow) :
  let toks := split "," (producing_countries row) in
  row_records uuid4 now st row
  = ((fst st + length toks)%nat,
     snd st ++
     map (fun p => mineral_record uuid4 now (fst p) (critical_mineral row)
                     (Spec.canonical (snd p)) (key_uses row))
         (combine (seq (fst st) (length toks)) toks)).
Proof.
  destruct st as [k data]. cbv zeta. unfold row_records.
  set (g := fun (i : nat) (c : string) =>
              mineral_record uuid4 now i (critical_mineral row)
                (strip (hd "" (split "(" c))) (key_uses row)).
  change (fold_left _ ?cs ?st0) with
    (fold_left (fun (acc : nat * list MineralRecord) c =>
                  let '(k, data) := acc in (S k, data ++ [g k c])) cs st0).
  rewrite fold_left_emit, length_map. cbn [fst snd]. f_equal. f_equal.
  generalize (split "," (producing_countries row)) k.
  induction l as [|t l IH]; intros i; simpl; [reflexivity|].
  now rewrite IH.
Qed.

(** What a record carries besides its identifier and time stamp. *)
Lemma row_records_fields (st : nat * list MineralRecord) (row : RawRow) :
  map (fun r => (mineral_name r, country r, uses r))
      (snd (row_records uuid4 now st row))
  = map (fun r => (mineral_name r, country r, uses r)) (snd st)
    ++ map (fun tok => (critical_mineral row, Spec.canonical tok, key_uses row))
           (split "," (producing_countries row)).
Proof.
  rewrite row_records_eq. cbn [snd]. rewrite map_app, map_map. f_equal.
  cbn [mineral_name country uses mineral_record].
  generalize (fst st). generalize (split "," (producing_countries row)).
  induction l as [|t l IH]; intros k; simpl; [reflexivity|].
  now rewrite IH.
Qed.

Lemma normalize_fields_from (df : list RawRow) (st : nat * list MineralRecord) :
  map (fun r => (mineral_name r, country r, uses r))
      (snd (fold_left (row_records uuid4 now) df st))
  = map (fun r => (mineral_name r, country r, uses r)) (snd st)
    ++ flat_map (fun row =>
         map (fun tok => (critical_mineral row, Spec.canonical tok, key_uses row))
             (split "," (producing_countries row))) df.
Proof.
  revert st. induction df as [|row df IH]; intros st; simpl.
  - now rewrite app_nil_r.
  - now rewrite IH, row_records_fields, <- app_assoc.
Qed.

(** Every record the loops append is built by [mineral_record]. *)
Lemma normalize_built_from (df : list RawRow) (st : nat * list MineralRecord)
  (P : MineralRecord -> Prop) :
  (forall i m c u, P (mineral_record uuid4 now i m c u)) ->
  Forall P (snd st) ->
  Forall P (snd (fold_left (row_records uuid4 now) df st)).
Proof.
  intros HP. revert st. induction df as [|row df IH]; intros st Hst; simpl.
  - exact Hst.
  - apply IH. rewrite row_records_eq. cbn [snd].
    apply Forall_app. split; [exact Hst|].
    apply Forall_forall. intros r Hr. apply in_map_iff in Hr.
    destruct Hr as (p & <- & _). apply HP.
Qed.

Lemma minerals_of_load (df : list RawRow) (fs : Files) :
  get_all_minerals (load_excel_data uuid4 now (Some df) fs)
  = snd (normalize uuid4 now df).
Proof.
  unfold load_excel_data, get_all_minerals.
  destruct (normalize uuid4 now df) as [k data]. reflexivity.
Qed.

Lemma cut_no_sep (sep : ascii) (s : string) :
  count_char sep s = O -> hd "" (split sep s) = s.
Proof.
  induction s as [|c s IH]; [reflexivity|].
  rewrite hd_split_step. simpl.
  destruct (Ascii.eqb c sep); simpl; [discriminate|].
  intros H. now rewrite IH.
Qed.

Lemma canonical_facts (tok : string) :
  strip (Spec.canonical tok) = Spec.canonical tok
  /\ count_char "(" (Spec.canonical tok) = O.
Proof.
  unfold Spec.canonical. split.
  - apply strip_idem.
  - unfold strip at 1.
    apply count_char_rstrip, count_char_lstrip, count_char_cut.
Qed.

Lemma canonical_plain (tok : string) :
  count_char "(" tok = O -> Spec.canonical tok = strip tok.
Proof.
  intros H. unfold Spec.canonical.
  rewrite cut_no_sep; [apply strip_idem|].
  unfold strip. now apply count_char_rstrip, count_char_lstrip.
Qed.

(** The estimators read their tables as the tables are written. *)
Lemma production_known (m c : string) (t : list (string * Z)) (v : Z) :
  In (m, t) production_data -> In (c, v) t -> estimate_production m c = v.
Proof.
  intros Hm Hc. simpl in Hm.
  repeat (destruct Hm as [Hm|Hm]; [injection Hm as <- <-|]);
    try contradiction;
    simpl in Hc;
    repeat (destruct Hc as [Hc|Hc]; [injection Hc as <- <-|]);
    try contradiction; reflexivity.
Qed.

Lemma production_default (m c : string) :
  (forall t v, In (m, t) production_data -> ~ In (c, v) t) ->
  estimate_production m c = 10000.
Proof.
  intros H. unfold estimate_production.
  destruct (dict_get production_data m) as [t|] eqn:Em; [|reflexivity].
  destruct (dict_get t c) as [v|] eqn:Ec; [|reflexivity].
  exfalso. apply (H t v); now apply dict_get_In.
Qed.

Lemma price_known (m : string) (p : Z) :
  In (m, p) prices -> estimate_price m = p.
Proof.
  intros Hm. simpl in Hm.
  repeat (destruct Hm as [Hm|Hm]; [injection Hm as <- <-|]);
    try contradiction; reflexivity.
Qed.

Lemma price_default (m : string) :
  (forall p, ~ In (m, p) prices) -> estimate_price m = 5000.
Proof.
  intros H. unfold estimate_price.
  destruct (dict_get prices m) as [p|] eqn:Em; [|reflexivity].
  exfalso. apply (H p). now apply dict_get_In.
Qed.

(** C3. Every record made at load has [reserves] equal to 75 times its
    [production_volume], its production being [estimate_production] of its
    mineral and country and its price [estimate_price] of its mineral alone,
    so two records of one mineral have one price whatever their countries.
    [estimate_reserves] is 75 times [estimate_production];
    [estimate_production] answers the constant of the table for a pair the
    table lists and 10000 for any other pair; [estimate_price] answers the
    constant of the mineral or 5000.  For Cobalt in the DRC the production
    is 130000 and the reserves are 9750000. *)
Theorem C3_estimator_contract :
  (forall df fs r,
     In r (get_all_minerals (load_excel_data uuid4 now (Some df) fs)) ->
     reserves r = production_volume r * 75
     /\ production_volume r = estimate_production (mineral_name r) (country r)
     /\ price r = estimate_price (mineral_name r))
  /\ (forall df fs r1 r2,
        In r1 (get_all_minerals (load_excel_data uuid4 now (Some df) fs)) ->
        In r2 (get_all_minerals (load_excel_data uuid4 now (Some df) fs)) ->
        mineral_name r1 = mineral_name r2 -> price r1 = price r2)
  /\ (forall m c, estimate_reserves m c = estimate_production m c * 75)
  /\ (forall m c t v,
        In (m, t) production_data -> In (c, v) t ->
        estimate_production m c = v)
  /\ (forall m c,
        (forall t v, In (m, t) production_data -> ~ In (c, v) t) ->
        estimate_production m c = 10000)
  /\ (forall m p, In (m, p) prices -> estimate_price m = p)
  /\ (forall m, (forall p, ~ In (m, p) prices) -> estimate_price m = 5000)
  /\ estimate_production "Cobalt" "DRC" = 130000
  /\ estimate_reserves "Cobalt" "DRC" = 9750000.
Proof.
  assert (Hall : forall df fs,
    Forall (fun r =>
      reserves r = production_volume r * 75
      /\ production_volume r = estimate_production (mineral_name r) (country r)
      /\ price r = estimate_price (mineral_name r))
      (get_all_minerals (load_excel_data uuid4 now (Some df) fs))).
  { intros df fs. rewrite minerals_of_load. unfold normalize.
    apply normalize_built_from; [|constructor].
    intros i m c u. now cbn. }
  split; [|split].
  - intros df fs r Hr.
    exact (proj1 (Forall_forall _ _) (Hall df fs) r Hr).
  - intros df fs r1 r2 H1 H2 E.
    pose proof (proj1 (Forall_forall _ _) (Hall df fs) r1 H1) as (_ & _ & P1).
    pose proof (proj1 (Forall_forall _ _) (Hall df fs) r2 H2) as (_ & _ & P2).
    now rewrite P1, P2, E.
  - repeat split.
    + exact production_known.
    + exact production_default.
    + exact price_known.
    + exact price_default.
Qed.

(** C4. The Normalizer emits, row after row and within a row piece after
    piece, exactly one record per comma-separated piece of the row's country
    string, carrying the row's mineral and uses and the piece in canonical
    form.  The pieces are the comma-free strings that joined by commas give
    the country string back, one more than there are commas.  The canonical
    form has nothing left to trim and no opening parenthesis, and is the
    trimmed piece itself when the piece has no parenthesis.  The row with
    countries "DRC, Zambia (est.), Morocco" gives three records, for "DRC",
    "Zambia" and "Morocco". *)
Theorem C4_one_record_per_country :
  (forall df fs,
     map (fun r => (mineral_name r, country r, uses r))
         (get_all_minerals (load_excel_data uuid4 now (Some df) fs))
     = flat_map (fun row =>
         map (fun tok => (critical_mineral row, Spec.canonical tok,
                          key_uses row))
             (split "," (producing_countries row))) df)
  /\ (forall s,
        String.concat "," (split "," s) = s
        /\ length (split "," s) = S (count_char "," s)
        /\ Forall (fun t => count_char "," t = O) (split "," s))
  /\ (forall tok,
        strip (Spec.canonical tok) = Spec.canonical tok
        /\ count_char "(" (Spec.canonical tok) = O)
  /\ (forall tok, count_char "(" tok = O -> Spec.canonical tok = strip tok)
  /\ (forall fs,
        map country
            (get_all_minerals
               (load_excel_data uuid4 now (Some [Examples.cobalt_row]) fs))
        = ["DRC"; "Zambia"; "Morocco"]).
Proof.
  repeat split.
  - intros df fs. rewrite minerals_of_load. unfold normalize.
    now rewrite normalize_fields_from.
  - apply concat_split.
  - apply length_split.
  - apply split_no_sep.
  - apply canonical_facts.
  - apply canonical_facts.
  - apply canonical_plain.
Qed.

End DatabaseFacts.

Section DepositFacts.
Import PyStr PyDict Database.
Variable uuid4 : nat -> string.

(** The country [create_sample_deposits] looks up for a row. *)
Lemma first_country_eq (row : RawRow) :
  strip (hd "" (split "(" (hd "" (split "," (producing_countries row)))))
  = Spec.first_normalized_country row.
Proof.
  unfold Spec.first_normalized_country.
  rewrite row_records_eq. cbn [fst snd app].
  destruct (split_cons "," (producing_countries row)) as (t & ts & E).
  rewrite E. cbn. unfold Spec.canonical.
  symmetry. now apply strip_cut_strip.
Qed.

Lemma row_deposit_eq (k : nat) (ds : list Deposit) (row : RawRow) :
  let c := Spec.first_normalized_country row in
  row_deposit uuid4 (k, ds) row
  = match dict_get country_coords c with
    | Some coords =>
        (S k,
         ds ++ [ {| d_id := uuid4 k;
                    d_mineral := critical_mineral row;
                    d_location_name :=
                      (critical_mineral row ++ " Deposit - " ++ c)%string;
                    d_country := c;
                    d_latitude := fst coords;
                    d_longitude := snd coords;
                    d_reserves := estimate_reserves (critical_mineral row) c;
                    d_annual_production :=
                      estimate_production (critical_mineral row) c;
                    d_status := "Active" |} ])
    | None => (k, ds)
    end.
Proof.
  cbv zeta. unfold row_deposit. rewrite first_country_eq. reflexivity.
Qed.

Lemma deposits_from (df : list RawRow) (k : nat) (ds : list Deposit) :
  let out := snd (fold_left (row_deposit uuid4) df (k, ds)) in
  map (fun d => (d_mineral d, d_country d)) out
  = map (fun d => (d_mineral d, d_country d)) ds
    ++ map (fun row => (critical_mineral row,
                        Spec.first_normalized_country row))
           (filter (fun row => dict_mem country_coords
                                 (Spec.first_normalized_country row)) df).
Proof.
  cbv zeta. revert k ds. induction df as [|row df IH]; intros k ds.
  - simpl. now rewrite app_nil_r.
  - cbn [fold_left filter]. rewrite row_deposit_eq. unfold dict_mem.
    destruct (dict_get country_coords (Spec.first_normalized_country row))
      as [xy|].
    + rewrite IH, map_app, <- app_assoc. reflexivity.
    + now rewrite IH.
Qed.

Lemma deposits_built (df : list RawRow) (k : nat) (ds : list Deposit)
  (P : Deposit -> Prop) :
  (forall i m c xy,
     dict_get country_coords c = Some xy ->
     P {| d_id := uuid4 i; d_mineral := m;
          d_location_name := (m ++ " Deposit - " ++ c)%string;
          d_country := c; d_latitude := fst xy; d_longitude := snd xy;
          d_reserves := estimate_reserves m c;
          d_annual_production := estimate_production m c;
          d_status := "Active" |}) ->
  Forall P ds ->
  Forall P (snd (fold_left (row_deposit uuid4) df (k, ds))).
Proof.
  intros HP. revert k ds. induction df as [|row df IH]; intros k ds Hds.
  - exact Hds.
  - cbn [fold_left]. rewrite row_deposit_eq.
    destruct (dict_get country_coords (Spec.first_normalized_country row))
      as [xy|] eqn:E.
    + apply IH, Forall_app. split; [exact Hds|].
      constructor; [|constructor]. now apply HP.
    + now apply IH.
Qed.

(** C5. The deposits are, in row order, one for each row whose first
    country (the country of the first record the Normalizer makes for the
    row) is in the coordinate table, with the row's mineral and that
    country, and none for any other row: one deposit or none per row.
    Every deposit has status "Active", coordinates from the table, and
    reserves and annual production from [estimate_reserves] and
    [estimate_production] at its mineral and country.  The Cobalt row
    "DRC, Zambia (est.), Morocco" gives the one deposit for the DRC, with
    reserves 9750000; the Lithium row "Mali (emerging), DRC" gives none. *)
Theorem C5_one_deposit_per_row (k : nat) (df : list RawRow) :
  let first := Spec.first_normalized_country in
  let ds := create_sample_deposits uuid4 k df in
  map (fun d => (d_mineral d, d_country d)) ds
  = map (fun row => (critical_mineral row, first row))
        (filter (fun row => dict_mem country_coords (first row)) df)
  /\ (forall row,
        length (create_sample_deposits uuid4 k [row])
        = if dict_mem country_coords (first row) then 1%nat else 0%nat)
  /\ (length ds <= length df)%nat
  /\ Forall (fun d =>
               d_status d = "Active"
               /\ d_reserves d = estimate_reserves (d_mineral d) (d_country d)
               /\ d_annual_production d
                  = estimate_production (d_mineral d) (d_country d)
               /\ dict_get country_coords (d_country d)
                  = Some (d_latitude d, d_longitude d)
               /\ d_location_name d
                  = (d_mineral d ++ " Deposit - " ++ d_country d)%string) ds
  /\ map (fun d => (d_country d, d_reserves d, d_status d))
         (create_sample_deposits uuid4 k [Examples.cobalt_row])
     = [("DRC", 9750000, "Active")]
  /\ create_sample_deposits uuid4 k [Examples.lithium_row] = [].
Proof.
  cbv zeta. unfold create_sample_deposits.
  pose proof (deposits_from df k []) as Hmap. cbv zeta in Hmap.
  cbn [map app] in Hmap.
  split; [exact Hmap|]. split; [|split; [|split; [|split; reflexivity]]].
  - intros row. cbn [fold_left]. rewrite row_deposit_eq. unfold dict_mem.
    now destruct (dict_get country_coords
                    (Spec.first_normalized_country row)).
  - apply (f_equal (@length _)) in Hmap. rewrite !length_map in Hmap.
    rewrite Hmap. apply filter_length_le.
  - apply deposits_built; [|constructor].
    intros i m c [x y] E. repeat split. exact E.
Qed.

End DepositFacts.

(** ** The Query Engine *)

Section SearchFacts.
Import PyStr PyDict Database.

Lemma search_step_eq (f : Filters) (results : list MineralRecord)
  (m : MineralRecord) :
  search_step f results m
  = if Spec.accepts f m then results ++ [m] else results.
Proof.
  unfold search_step, Spec.accepts, Spec.field_accepts, truthy.
  destruct (f_mineral_name f) as [v|], (f_country f) as [w|]; cbn;
    repeat match goal with
           | |- context [String.eqb ?a ?b] => destruct (String.eqb a b); cbn
           end; reflexivity.
Qed.

Lemma search_loop (f : Filters) (ms results : list MineralRecord) :
  fold_left (search_step f) ms results = results ++ filter (Spec.accepts f) ms.
Proof.
  revert results. induction ms as [|m ms IH]; intros results; simpl.
  - now rewrite app_nil_r.
  - rewrite IH, search_step_eq.
    destruct (Spec.accepts f m); [now rewrite <- app_assoc | reflexivity].
Qed.

Lemma filter_all {A : Type} (p : A -> bool) (l : list A) :
  (forall x, p x = true) -> filter p l = l.
Proof.
  intros H. induction l as [|x l IH]; simpl; [reflexivity|].
  now rewrite H, IH.
Qed.

(** [search_minerals] keeps the records every non-empty field accepts. *)
Lemma search_minerals_filter (fs : Files) (f : Filters) :
  search_minerals fs (Some f) = filter (Spec.accepts f) (get_all_minerals fs).
Proof.
  unfold search_minerals.
  destruct (filters_falsy (Some f)) eqn:E.
  - symmetry. apply filter_all. intros m. cbn in E.
    unfold Spec.accepts. destruct (f_mineral_name f), (f_country f);
      try discriminate. reflexivity.
  - now rewrite search_loop.
Qed.

Lemma accepts_matches (f : Filters) (m : MineralRecord) :
  f_mineral_name f <> Some "" -> f_country f <> Some "" ->
  Spec.accepts f m = Spec.matches f m.
Proof.
  intros Hn Hc. unfold Spec.accepts, Spec.matches, Spec.field_accepts,
    Spec.field_matches.
  destruct (f_mineral_name f) as [v|], (f_country f) as [w|];
    repeat match goal with
           | |- context [String.eqb ?a ""] =>
               destruct (String.eqb_spec a ""); [subst; congruence|]
           end; reflexivity.
Qed.

(** C1 (as the code has it). [search_minerals] returns, in the order of
    the record set, exactly the records that every field of the filter
    accepts, a field accepting a record when it is absent, when it is the
    empty string, or when it equals the record's field once both are
    lower-cased.  With no filter or an empty one the record set comes
    back unchanged, and for a filter none of whose fields is the empty
    string the result is the search of the specification. *)
Theorem C1_search_accepts (fs : Files) :
  (forall f,
     search_minerals fs (Some f)
     = filter (Spec.accepts f) (get_all_minerals fs))
  /\ search_minerals fs None = get_all_minerals fs
  /\ search_minerals fs (Some no_filters) = get_all_minerals fs
  /\ (forall f,
        f_mineral_name f <> Some "" -> f_country f <> Some "" ->
        search_minerals fs (Some f) = Spec.search (get_all_minerals fs) f).
Proof.
  split; [|split; [|split]].
  - apply search_minerals_filter.
  - reflexivity.
  - reflexivity.
  - intros f Hn Hc. rewrite search_minerals_filter. unfold Spec.search.
    apply filter_ext. intros m. now apply accepts_matches.
Qed.

End SearchFacts.

(** ** Sorting *)

Section SortFacts.
Import PyDict.
Context {A : Type}.
Variable before : A -> A -> bool.

Lemma insert_by_perm (x : A) (l : list A) :
  Permutation (insert_by before x l) (x :: l).
Proof.
  induction l as [|y l IH]; simpl; [reflexivity|].
  destruct (before x y); [reflexivity|].
  rewrite IH. apply perm_swap.
Qed.

Lemma sort_by_perm (l : list A) : Permutation (sort_by before l) l.
Proof.
  induction l as [|x l IH]; simpl; [reflexivity|].
  now rewrite insert_by_perm, IH.
Qed.

Hypothesis before_total :
  forall x y, before x y = false -> before y x = true.
Hypothesis before_trans :
  forall x y z, before x y = true -> before y z = true -> before x z = true.

Lemma insert_by_sorted (x : A) (l : list A) :
  StronglySorted (fun a b => before a b = true) l ->
  StronglySorted (fun a b => before a b = true) (insert_by before x l).
Proof.
  induction 1 as [|y l Hs IH Hy]; simpl.
  - repeat constructor.
  - destruct (before x y) eqn:E.
    + constructor; [now constructor|].
      constructor; [exact E|].
      eapply Forall_impl; [|exact Hy]. intros z Hz.
      now apply before_trans with y.
    + constructor; [exact IH|].
      apply (Permutation_Forall (Permutation_sym (insert_by_perm x l))).
      constructor; [now apply before_total | exact Hy].
Qed.

Lemma sort_by_sorted (l : list A) :
  StronglySorted (fun a b => before a b = true) (sort_by before l).
Proof.
  induction l as [|x l IH]; simpl; [constructor|].
  now apply insert_by_sorted.
Qed.

End SortFacts.

Section ValueSortFacts.
Import PyDict.

Lemma sorted_by_value_desc_perm (l : list (string * Z)) :
  Permutation (sorted_by_value_desc l) l.
Proof. apply sort_by_perm. Qed.

Lemma strongly_sorted_weaken {B : Type} (R R' : B -> B -> Prop)
  (l : list B) :
  (forall x y, R x y -> R' x y) -> StronglySorted R l -> StronglySorted R' l.
Proof.
  intros HR. induction 1 as [|x l Hs IH Hx]; constructor; [exact IH|].
  eapply Forall_impl; [|exact Hx]. intros y. apply HR.
Qed.

Lemma sorted_by_value_desc_descending (l : list (string * Z)) :
  Spec.descending (sorted_by_value_desc l).
Proof.
  unfold Spec.descending, sorted_by_value_desc.
  eapply strongly_sorted_weaken; [|apply sort_by_sorted].
  - intros x y H. now apply Z.leb_le.
  - intros x y H. apply Z.leb_gt in H. apply Z.leb_le. lia.
  - intros x y z H1 H2. apply Z.leb_le in H1, H2. apply Z.leb_le. lia.
Qed.

(** Stability: pairs of equal total keep the order they came in. *)
Lemma insert_with_total (t : Z) (x : string * Z) (l : list (string * Z)) :
  Spec.with_total t (insert_by (fun a b => snd b <=? snd a) x l)
  = Spec.with_total t (x :: l).
Proof.
  unfold Spec.with_total.
  induction l as [|y l IH]; [reflexivity|]. cbn [insert_by].
  destruct (snd y <=? snd x) eqn:E; [reflexivity|].
  apply Z.leb_gt in E. cbn [filter] in *. rewrite IH.
  destruct (Z.eqb_spec (snd x) t), (Z.eqb_spec (snd y) t);
    try reflexivity. lia.
Qed.

Lemma sorted_by_value_desc_stable (t : Z) (l : list (string * Z)) :
  Spec.with_total t (sorted_by_value_desc l) = Spec.with_total t l.
Proof.
  induction l as [|x l IH]; [reflexivity|].
  unfold sorted_by_value_desc in *. cbn [sort_by fold_right].
  fold (sort_by (fun a b : string * Z => snd b <=? snd a) l).
  rewrite insert_with_total. unfold Spec.with_total in *. cbn [filter].
  now rewrite IH.
Qed.

Lemma firstn_sorted {B : Type} (R : B -> B -> Prop) (n : nat) (l : list B) :
  StronglySorted R l -> StronglySorted R (firstn n l).
Proof.
  intros H. revert n. induction H as [|x l Hs IH Hx]; intros [|n]; simpl;
    try constructor.
  - apply IH.
  - apply Forall_forall. intros y Hy.
    apply (proj1 (Forall_forall _ _) Hx). revert Hy. clear.
    revert n. induction l as [|z l IH]; intros [|n]; simpl; try tauto.
    intros [->|H]; [now left | right; now apply (IH n)].
Qed.

End ValueSortFacts.

(** ** Grouping by country *)

Section GroupFacts.
Import PyStr PyDict Database Analytics.

Lemma py_sum_snoc (l : list Z) (x : Z) : py_sum (l ++ [x]) = py_sum l + x.
Proof. unfold py_sum. now rewrite fold_left_app. Qed.

Lemma existsb_eqb_In (c : string) (l : list string) :
  existsb (String.eqb c) l = true <-> In c l.
Proof.
  rewrite existsb_exists. split.
  - intros (x & Hx & E). apply String.eqb_eq in E. now subst.
  - intros H. exists c. split; [exact H | apply String.eqb_refl].
Qed.

Lemma first_seen_In (c : string) (l : list string) :
  In c (Spec.first_seen l) <-> In c l.
Proof.
  induction l as [|x l IH]; simpl; [tauto|].
  rewrite filter_In, IH, negb_true_iff, String.eqb_neq.
  destruct (String.eqb_spec x c) as [->|N]; [tauto|].
  split; [tauto|]. intros [H|H]; [contradiction|]. right. split; congruence.
Qed.

Lemma first_seen_NoDup (l : list string) : NoDup (Spec.first_seen l).
Proof.
  induction l as [|x l IH]; simpl; constructor.
  - rewrite filter_In, String.eqb_refl. intros [_ H]. discriminate.
  - now apply NoDup_filter.
Qed.

Lemma first_seen_snoc (l : list string) (c : string) :
  Spec.first_seen (l ++ [c])
  = if existsb (String.eqb c) l then Spec.first_seen l
    else Spec.first_seen l ++ [c].
Proof.
  induction l as [|x l IH]; [reflexivity|].
  cbn [app Spec.first_seen existsb]. rewrite IH.
  destruct (existsb (String.eqb c) l).
  - now rewrite orb_true_r.
  - rewrite orb_false_r, filter_app. cbn [filter].
    destruct (String.eqb c x); cbn [negb orb app];
      [now rewrite app_nil_r | reflexivity].
Qed.

Lemma total_of_snoc (rs : list MineralRecord) (m : MineralRecord)
  (c : string) :
  Spec.total_of (rs ++ [m]) c
  = Spec.total_of rs c
    + (if String.eqb (country m) c then production_volume m else 0).
Proof.
  unfold Spec.total_of. rewrite filter_app. cbn [filter].
  destruct (String.eqb (country m) c).
  - rewrite map_app. cbn [map]. apply py_sum_snoc.
  - rewrite app_nil_r. lia.
Qed.

Lemma total_of_absent (rs : list MineralRecord) (c : string) :
  ~ In c (map country rs) -> Spec.total_of rs c = 0.
Proof.
  intros H. unfold Spec.total_of.
  replace (filter (fun m => String.eqb (country m) c) rs) with
    (@nil MineralRecord); [reflexivity|].
  symmetry. induction rs as [|r rs IH]; [reflexivity|]. cbn [filter].
  destruct (String.eqb_spec (country r) c) as [E|_].
  - exfalso. apply H. left. exact E.
  - apply IH. intros Hin. apply H. now right.
Qed.

(** [d[k] += v] on a dict given by its keys and a function of the key. *)
Lemma dict_add_new (g : string -> Z) (keys : list string) (c : string)
  (v : Z) :
  ~ In c keys ->
  dict_add (map (fun k => (k, g k)) keys) c v
  = map (fun k => (k, g k)) keys ++ [(c, 0 + v)].
Proof.
  induction keys as [|k keys IH]; intros H; [reflexivity|]. cbn.
  destruct (String.eqb_spec k c) as [->|_].
  - exfalso. apply H. now left.
  - rewrite IH; [reflexivity|]. intros Hin. apply H. now right.
Qed.

Lemma dict_add_old (g : string -> Z) (keys : list string) (c : string)
  (v : Z) :
  NoDup keys -> In c keys ->
  dict_add (map (fun k => (k, g k)) keys) c v
  = map (fun k => (k, g k + (if String.eqb c k then v else 0))) keys.
Proof.
  induction 1 as [|k keys Hk Hnd IH]; intros Hin; [contradiction|]. cbn.
  rewrite (String.eqb_sym c k).
  destruct (String.eqb_spec k c) as [->|N].
  - f_equal. apply map_ext_in. intros k' Hk'.
    destruct (String.eqb_spec c k') as [->|_]; [contradiction|].
    now rewrite Z.add_0_r.
  - rewrite Z.add_0_r. f_equal. apply IH.
    destruct Hin as [E|Hin]; [congruence | exact Hin].
Qed.

Lemma groups_snoc (rs : list MineralRecord) (m : MineralRecord) :
  dict_add (Spec.groups rs) (country m) (production_volume m)
  = Spec.groups (rs ++ [m]).
Proof.
  unfold Spec.groups. rewrite map_app. cbn [map].
  rewrite first_seen_snoc.
  destruct (existsb (String.eqb (country m)) (map country rs)) eqn:E.
  - apply existsb_eqb_In in E.
    rewrite dict_add_old;
      [|apply first_seen_NoDup | now apply first_seen_In].
    apply map_ext. intros k. rewrite total_of_snoc.
    now rewrite (String.eqb_sym (country m) k).
  - assert (N : ~ In (country m) (map country rs)).
    { intros H. apply existsb_eqb_In in H. congruence. }
    rewrite dict_add_new; [|now rewrite first_seen_In].
    rewrite map_app. cbn [map]. f_equal.
    + apply map_ext_in. intros k Hk. rewrite total_of_snoc.
      apply (proj1 (first_seen_In _ _)) in Hk.
      destruct (String.eqb_spec (country m) k) as [E'|_];
        [subst k; contradiction|]. now rewrite Z.add_0_r.
    + rewrite total_of_snoc, String.eqb_refl, total_of_absent by exact N.
      reflexivity.
Qed.

Lemma country_production_from (rs ms : list MineralRecord) :
  fold_left (fun d m => dict_add d (country m) (production_volume m))
            ms (Spec.groups rs)
  = Spec.groups (rs ++ ms).
Proof.
  revert rs. induction ms as [|m ms IH]; intros rs; cbn [fold_left].
  - now rewrite app_nil_r.
  - rewrite groups_snoc, IH, <- app_assoc. reflexivity.
Qed.

(** The dict the aggregation loop builds: one entry per country, in the
    order the records introduce the countries, holding the country's
    summed production. *)
Lemma country_production_groups (ms : list MineralRecord) :
  country_production ms = Spec.groups ms.
Proof. exact (country_production_from [] ms). Qed.

Lemma distinct_In (c : string) (l : list string) :
  In c (distinct l) <-> In c l.
Proof.
  induction l as [|x l IH]; simpl; [tauto|].
  destruct (existsb (String.eqb x) l) eqn:E.
  - apply existsb_eqb_In in E. rewrite IH. split; [tauto|].
    intros [->|H]; assumption.
  - simpl. now rewrite IH.
Qed.

Lemma distinct_NoDup (l : list string) : NoDup (distinct l).
Proof.
  induction l as [|x l IH]; simpl; [constructor|].
  destruct (existsb (String.eqb x) l) eqn:E; [exact IH|].
  constructor; [|exact IH]. rewrite distinct_In.
  intros H. apply existsb_eqb_In in H. congruence.
Qed.

(** [count_countries] is the number of groups. *)
Lemma count_countries_groups (fs : Files) :
  count_countries fs = Z.of_nat (length (Spec.groups (get_all_minerals fs))).
Proof.
  unfold count_countries, get_unique_countries, sorted_str, Spec.groups.
  rewrite (Permutation_length (sort_by_perm String.leb _)), length_map.
  f_equal. apply Permutation_length, NoDup_Permutation.
  - apply distinct_NoDup.
  - apply first_seen_NoDup.
  - intros c. now rewrite distinct_In, first_seen_In.
Qed.

End GroupFacts.

(** ** The Aggregation Engine *)

Section AggregationFacts.
Import PyStr PyDict Database Analytics.

Lemma max_by_value_cons (x : string * Z) (l : list (string * Z)) :
  exists y, max_by_value (x :: l) = Some y.
Proof.
  simpl. destruct (max_by_value l) as [y|]; [|now exists x].
  destruct (snd x <? snd y); [now exists y | now exists x].
Qed.

Lemma slice_to_firstn {B : Type} (l : list B) (n : Z) :
  exists k, slice_to l n = firstn k l.
Proof.
  unfold slice_to. destruct (0 <=? n); eexists; reflexivity.
Qed.

(** C2 (as the code has it). [generate_production_by_country] takes the
    records whose mineral name equals [mineral] once both are lower-cased
    (all records when [mineral] is empty), and answers [None] when there are
    none; otherwise its pairs are the groups of those records by country,
    each with the country's summed production, in descending order of the
    sum, pairs of equal sum standing in the order in which the record set
    introduces their countries.  Over {DRC: 130000, Zambia: 5000} for
    Cobalt the answer is [("DRC", 130000); ("Zambia", 5000)]. *)
Theorem C2_production_by_country :
  (forall fs mineral,
     let matching :=
       filter (fun m => String.eqb mineral ""
                        || String.eqb (lower (mineral_name m)) (lower mineral))
              (get_all_minerals fs) in
     match generate_production_by_country fs mineral with
     | None => matching = []
     | Some out =>
         matching <> []
         /\ Permutation out (Spec.groups matching)
         /\ Spec.descending out
         /\ forall t,
              Spec.with_total t out = Spec.with_total t (Spec.groups matching)
     end)
  /\ generate_production_by_country Examples.cobalt_files "Cobalt"
     = Some [("DRC", 130000); ("Zambia", 5000)].
Proof.
  split; [|reflexivity].
  intros fs mineral. cbv zeta. unfold generate_production_by_country.
  rewrite search_minerals_filter.
  rewrite (filter_ext (Spec.accepts _)
             (fun m => String.eqb mineral ""
                       || String.eqb (lower (mineral_name m)) (lower mineral)))
    by (intros m; unfold Spec.accepts; cbn; apply andb_true_r).
  destruct (filter _ (get_all_minerals fs)) as [|r rs] eqn:E; [reflexivity|].
  rewrite country_production_groups.
  split; [discriminate|]. split; [|split].
  - apply sorted_by_value_desc_perm.
  - apply sorted_by_value_desc_descending.
  - intros t. apply sorted_by_value_desc_stable.
Qed.

(** C6. [generate_top_producers] with the number of countries as limit
    lists the groups of all records by country, each with its summed
    production.  For every record set and every limit, a count (an
    integer that is not negative), the answer has at most [limit]
    entries, exactly the smaller of [limit] and the number of countries,
    is in descending order of the sum and is a prefix of that full list.
    Order and prefix hold as well for an integer below 0, where the slice
    drops the last [-limit] entries of the full list. *)
Theorem C6_top_producers (fs : Files) (limit : Z) :
  let full := generate_top_producers fs (count_countries fs) in
  let out := generate_top_producers fs limit in
  Permutation full (Spec.groups (get_all_minerals fs))
  /\ Spec.descending out
  /\ (exists rest, full = out ++ rest)
  /\ (0 <= limit -> Z.of_nat (length out) <= limit)
  /\ Z.of_nat (length out)
     = if 0 <=? limit then Z.min limit (count_countries fs)
       else Z.max 0 (count_countries fs + limit).
Proof.
  cbv zeta. unfold generate_top_producers.
  rewrite count_countries_groups, country_production_groups.
  set (s := sorted_by_value_desc (Spec.groups (get_all_minerals fs))).
  assert (Hlen : length (Spec.groups (get_all_minerals fs)) = length s).
  { symmetry. apply Permutation_length, sorted_by_value_desc_perm. }
  rewrite Hlen.
  assert (Hfull : slice_to s (Z.of_nat (length s)) = s).
  { unfold slice_to. destruct (Z.leb_spec 0 (Z.of_nat (length s))); [|lia].
    rewrite Nat2Z.id. apply firstn_all. }
  rewrite Hfull.
  split; [apply sorted_by_value_desc_perm|].
  split.
  { destruct (slice_to_firstn s limit) as [k ->].
    apply firstn_sorted, sorted_by_value_desc_descending. }
  split.
  { destruct (slice_to_firstn s limit) as [k ->].
    exists (skipn k s). symmetry. apply firstn_skipn. }
  unfold slice_to.
  destruct (Z.leb_spec 0 limit) as [Hl|Hl]; rewrite length_firstn; lia.
Qed.

(** C7. On an empty record set [get_summary_statistics] returns normally,
    with average price 0, top producer "N/A" of volume 0 and both totals
    0.  On any record set the guards keep the division from a zero count
    and the maximum from an empty dict: the function fails only where
    there are records and the division of the sum of their prices by
    their number fails, which for that positive divisor is the
    OverflowError of an average beyond the largest float. *)
Theorem C7_summary_statistics_empty :
  (forall fs,
     get_all_minerals fs = [] ->
     get_summary_statistics fs
     = Some {| total_production := 0;
               total_reserves := 0;
               avg_price := PyInt 0;
               top_producer := "N/A";
               top_producer_volume := 0 |})
  /\ (forall fs,
        get_summary_statistics fs = None ->
        get_all_minerals fs <> []
        /\ Z.of_nat (length (get_all_minerals fs)) <> 0
        /\ truediv (py_sum (map price (get_all_minerals fs)))
                   (Z.of_nat (length (get_all_minerals fs))) = None).
Proof.
  split.
  - intros fs H. unfold get_summary_statistics. now rewrite H.
  - intros fs. unfold get_summary_statistics.
    destruct (get_all_minerals fs) as [|r rs]; [discriminate|].
    set (all := r :: rs).
    destruct (truediv (py_sum (map price all)) (Z.of_nat (length all)))
      as [x|] eqn:E.
    + destruct (country_production all) as [|y l]; [discriminate|].
      destruct (max_by_value_cons y l) as [z ->]. discriminate.
    + intros _. split; [discriminate|]. split; [|reflexivity].
      unfold all. cbn [length]. lia.
Qed.

(** The average of a price beyond the largest float is the OverflowError
    of the division, and the exact average of prices within it is found. *)
Lemma summary_statistics_overflow :
  get_summary_statistics Examples.priceless_files = None
  /\ truediv (10 ^ 400) 1 = None
  /\ truediv 64000 2 = Some 32000%float
  /\ truediv 1 0 = None.
Proof. repeat split; reflexivity. Qed.

End AggregationFacts.

(** ** Accounts *)

Section AuthFacts.
Import PyStr PyDict Auth.
Variable hash_password : string -> string.
Variable uuid4 : nat -> string.
Variable now : nat -> string.

Lemma truthy_some (s : string) : truthy (Some s) = true <-> s <> "".
Proof.
  unfold truthy. destruct (String.eqb_spec s ""); cbn; split; congruence.
Qed.

Lemma find_unknown (users : list User) (un : string) :
  Spec.unknown_username users un ->
  find (fun u => String.eqb (lower (username u)) (lower un)) users = None.
Proof.
  intros H.
  destruct (find _ users) as [u|] eqn:E; [|reflexivity].
  apply find_some in E. destruct E as [Hin Heq].
  apply String.eqb_eq in Heq. now apply H in Hin.
Qed.

Lemma find_known (users : list User) (un pw : string) :
  Spec.wrong_password hash_password users un pw ->
  exists u,
    find (fun u => String.eqb (lower (username u)) (lower un)) users = Some u
    /\ String.eqb (hash_password pw) (password u) = false.
Proof.
  intros [(u0 & Hin0 & E0) Hall].
  destruct (find _ users) as [u|] eqn:E.
  - exists u. split; [reflexivity|]. apply find_some in E.
    destruct E as [Hin Heq]. apply String.eqb_eq in Heq.
    apply String.eqb_neq. now apply Hall.
  - exfalso. apply (find_none _ _ E) in Hin0. cbn in Hin0.
    apply String.eqb_neq in Hin0. contradiction.
Qed.

(** An answer of [login] that is not a success is one of two failures, and
    which one depends on the arguments alone. *)
Lemma login_failure_shape (users : list User) (un pw : option string) :
  success (login hash_password users un pw) = false ->
  login hash_password users un pw
  = if negb (truthy un) || negb (truthy pw)
    then failure "Username and password required"
    else Spec.generic_failure.
Proof.
  unfold login.
  destruct (negb (truthy un) || negb (truthy pw)) eqn:G; [reflexivity|].
  destruct un as [un|], pw as [pw|]; cbn in G; try discriminate G;
    try (rewrite orb_true_r in G; discriminate G).
  destruct (find _ users) as [u|]; [|reflexivity].
  destruct (negb (String.eqb (hash_password pw) (password u)));
    [reflexivity | discriminate].
Qed.

(** C8 (as the code has it). For a username and a password that are both
    given and not empty, [login] answers an unknown username and a known
    username with a wrong password alike, with the one failure "Invalid
    username or password".  When the username or the password is missing
    or empty it answers "Username and password required" whatever the
    store holds.  So a failed answer is a function of the arguments alone:
    two stores that both refuse an attempt refuse it with the same
    answer. *)
Theorem C8_login_failures_indistinguishable (users : list User) :
  (forall un pw,
     un <> "" -> pw <> "" ->
     Spec.unknown_username users un ->
     login hash_password users (Some un) (Some pw) = Spec.generic_failure)
  /\ (forall un pw,
        un <> "" -> pw <> "" ->
        Spec.wrong_password hash_password users un pw ->
        login hash_password users (Some un) (Some pw) = Spec.generic_failure)
  /\ (forall un pw,
        truthy un = false \/ truthy pw = false ->
        login hash_password users un pw
        = failure "Username and password required")
  /\ (forall users' un pw,
        success (login hash_password users un pw) = false ->
        success (login hash_password users' un pw) = false ->
        login hash_password users un pw = login hash_password users' un pw).
Proof.
  split; [|split; [|split]].
  - intros un pw Hu Hp H. unfold login.
    rewrite (proj2 (truthy_some un) Hu), (proj2 (truthy_some pw) Hp).
    cbn [negb orb]. now rewrite find_unknown.
  - intros un pw Hu Hp H. unfold login.
    rewrite (proj2 (truthy_some un) Hu), (proj2 (truthy_some pw) Hp).
    cbn [negb orb]. destruct (find_known users un pw H) as (u & -> & ->).
    reflexivity.
  - intros un pw H. unfold login.
    destruct H as [-> | ->]; cbn [negb orb]; [reflexivity|].
    now rewrite orb_true_r.
  - intros users' un pw H1 H2.
    now rewrite (login_failure_shape users un pw H1),
      (login_failure_shape users' un pw H2).
Qed.

Lemma register_success (users : list User) (k : nat)
  (un pw em role_ : option string) :
  success (fst (register hash_password uuid4 now users k un pw em role_))
  = true ->
  exists name secret mail,
    un = Some name /\ pw = Some secret /\ em = Some mail
    /\ register hash_password uuid4 now users k un pw em role_
       = ({| success := true; message := "User registered successfully";
             user := None |},
          users ++
          [ {| id := uuid4 k; username := name;
               password := hash_password secret; email := mail;
               role := match role_ with
                       | Some r => r
                       | None => "Researcher"
                       end;
               created_at := now k |} ]).
Proof.
  unfold register.
  destruct (negb (truthy un) || negb (truthy pw) || negb (truthy em));
    [discriminate|].
  destruct un as [name|], pw as [secret|], em as [mail|]; try discriminate.
  destruct (existsb _ users); [discriminate|].
  intros _. now exists name, secret, mail.
Qed.

(** C9 (as the code has it). A successful registration appends one
    account whose role is the role the caller passed, whatever string that
    is, and "Researcher" when the caller passed none; nothing compares the
    role with the known roles, which are the keys of [role_permissions].
    "Researcher" is one of them and may neither edit, delete nor manage
    users. *)
Theorem C9_register_stores_given_role (users : list User) (k : nat)
  (un pw em role_ : option string) :
  success (fst (register hash_password uuid4 now users k un pw em role_))
  = true ->
  (exists u,
     snd (register hash_password uuid4 now users k un pw em role_)
     = users ++ [u]
     /\ role u = match role_ with Some r => r | None => "Researcher" end
     /\ (role_ = None -> In (role u) Spec.known_roles))
  /\ map fst role_permissions = Spec.known_roles
  /\ check_permission "Researcher" "edit_all" = false
  /\ check_permission "Researcher" "delete_all" = false
  /\ check_permission "Researcher" "manage_users" = false.
Proof.
  intros H. split; [|repeat split].
  destruct (register_success users k un pw em role_ H)
    as (name & secret & mail & _ & _ & _ & ->).
  eexists. split; [reflexivity|]. split; [reflexivity|].
  intros ->. cbn. tauto.
Qed.

(** C10. [register] fails exactly when the username, the password or the
    email is missing or empty, or when some stored account has the
    username up to case; and whenever it fails the stored accounts are
    the ones there were before the call. *)
Theorem C10_failed_register_keeps_store (users : list User) (k : nat)
  (un pw em role_ : option string) :
  let r := register hash_password uuid4 now users k un pw em role_ in
  (success (fst r) = false <->
   truthy un = false \/ truthy pw = false \/ truthy em = false
   \/ exists name u,
        un = Some name /\ In u users
        /\ lower (username u) = lower name)
  /\ (success (fst r) = false -> snd r = users).
Proof.
  cbv zeta. unfold register.
  destruct (truthy un) eqn:Tu; cbn [negb orb];
    [|split; [split; auto | reflexivity]].
  destruct (truthy pw) eqn:Tp; cbn [negb orb];
    [|split; [split; auto | reflexivity]].
  destruct (truthy em) eqn:Te; cbn [negb orb];
    [|split; [split; auto | reflexivity]].
  destruct un as [name|], pw as [secret|], em as [mail|]; try discriminate.
  destruct (existsb _ users) eqn:E.
  - split; [|reflexivity]. split; [|reflexivity]. intros _.
    apply existsb_exists in E. destruct E as (u & Hin & Heq).
    apply String.eqb_eq in Heq. right. right. right. now exists name, u.
  - cbn [fst snd success]. split; [|discriminate]. split; [discriminate|].
    intros [H|[H|[H|(n & u & [= <-] & Hin & Heq)]]]; try discriminate.
    assert (existsb (fun u => String.eqb (lower (username u)) (lower name))
              users = true) as X.
    { apply existsb_exists. exists u. split; [exact Hin|].
      now apply String.eqb_eq. }
    congruence.
Qed.

End AuthFacts.

(** ** The properties at the sample data *)

Section Instances.
Import PyStr PyDict Database Analytics.

(** The search of the specification and [search_minerals] part on a field
    that is present and empty: the code returns every record, the
    specification's reading none. *)
Lemma C1_empty_field_is_no_constraint :
  map country (search_minerals Examples.cobalt_files
                 (Some Examples.empty_name_filter))
  = ["DRC"; "Zambia"]
  /\ Spec.search (get_all_minerals Examples.cobalt_files)
       Examples.empty_name_filter
     = [].
Proof. split; reflexivity. Qed.

Lemma C1_search_accepts_witness :
  f_mineral_name {| f_mineral_name := Some "cobalt";
                    f_country := Some "zambia" |} <> Some ""
  /\ map country
       (search_minerals Examples.cobalt_files
          (Some {| f_mineral_name := Some "cobalt";
                   f_country := Some "zambia" |}))
     = ["Zambia"].
Proof.
  split; [discriminate|].
  rewrite (proj2 (proj2 (proj2 (C1_search_accepts Examples.cobalt_files)))
             {| f_mineral_name := Some "cobalt"; f_country := Some "zambia" |});
    [reflexivity | discriminate | discriminate].
Defined.

(** Two countries with the same total come out in the order of the record
    set, not of their names; and a query in another case still finds the
    records. *)
Lemma C2_ties_keep_record_order :
  map (fun r => (mineral_name r, country r, production_volume r))
      (get_all_minerals Examples.nickel_files)
  = [("Nickel", "South Africa", 10000); ("Nickel", "Madagascar", 10000)]
  /\ generate_production_by_country Examples.nickel_files "Nickel"
     = Some [("South Africa", 10000); ("Madagascar", 10000)]
  /\ Spec.productionByCountry (get_all_minerals Examples.nickel_files)
       "Nickel"
     = [("Madagascar", 10000); ("South Africa", 10000)]
  /\ generate_production_by_country Examples.nickel_files "nickel"
     = Some [("South Africa", 10000); ("Madagascar", 10000)]
  /\ Spec.productionByCountry (get_all_minerals Examples.nickel_files)
       "nickel"
     = [].
Proof. repeat split; reflexivity. Qed.

Lemma C3_estimator_contract_witness :
  In Examples.cobalt_drc (get_all_minerals Examples.cobalt_files)
  /\ reserves Examples.cobalt_drc = 130000 * 75.
Proof.
  assert (H : In Examples.cobalt_drc (get_all_minerals Examples.cobalt_files))
    by (left; reflexivity).
  split; [exact H|].
  destruct (proj1 (C3_estimator_contract Examples.ids Examples.clock)
              Examples.cobalt_sheet Examples.no_files Examples.cobalt_drc H)
    as [E _].
  rewrite E. reflexivity.
Defined.

Lemma C4_one_record_per_country_witness :
  count_char "(" " Morocco" = O /\ Spec.canonical " Morocco" = "Morocco".
Proof.
  split; [reflexivity|].
  rewrite (proj1 (proj2 (proj2 (proj2
             (C4_one_record_per_country Examples.ids Examples.clock))))
             " Morocco"); reflexivity.
Defined.

Lemma C6_top_producers_witness :
  0 <= 1
  /\ Z.of_nat (length (generate_top_producers Examples.cobalt_files 1)) <= 1.
Proof.
  split; [lia|].
  apply (proj1 (proj2 (proj2 (proj2
           (C6_top_producers Examples.cobalt_files 1))))). lia.
Defined.

Lemma C7_summary_statistics_empty_witness :
  get_all_minerals Examples.no_files = []
  /\ get_summary_statistics Examples.no_files
     = Some {| total_production := 0;
               total_reserves := 0;
               avg_price := PyInt 0;
               top_producer := "N/A";
               top_producer_volume := 0 |}.
Proof.
  split; [reflexivity|].
  apply (proj1 C7_summary_statistics_empty). reflexivity.
Defined.

End Instances.

Section AuthInstances.
Import PyStr PyDict Auth.

(** A known username with an empty password, which is not the stored one,
    is refused with another message than an unknown username is. *)
Lemma C8_empty_password_other_message :
  Spec.wrong_password Examples.digest [Examples.admin] "admin" ""
  /\ login Examples.digest [Examples.admin] (Some "admin") (Some "")
     = failure "Username and password required"
  /\ Spec.unknown_username [Examples.admin] "nobody"
  /\ login Examples.digest [Examples.admin] (Some "nobody") (Some "x")
     = Spec.generic_failure
  /\ String.eqb
       (message (login Examples.digest [Examples.admin]
                   (Some "admin") (Some "")))
       (message Spec.generic_failure)
     = false.
Proof.
  split; [|split; [reflexivity|split; [|split; reflexivity]]].
  - split.
    + exists Examples.admin. split; [now left | reflexivity].
    + intros u [<-|[]] _. discriminate.
  - intros u [<-|[]]. discriminate.
Qed.

Lemma C8_login_failures_indistinguishable_witness :
  "admin" <> "" /\ "letmein" <> ""
  /\ Spec.wrong_password Examples.digest [Examples.admin] "admin" "letmein"
  /\ login Examples.digest [Examples.admin] (Some "admin") (Some "letmein")
     = Spec.generic_failure.
Proof.
  assert (W : Spec.wrong_password Examples.digest [Examples.admin]
                "admin" "letmein").
  { split.
    - exists Examples.admin. split; [now left | reflexivity].
    - intros u [<-|[]] _. discriminate. }
  split; [discriminate|]. split; [discriminate|]. split; [exact W|].
  apply (proj1 (proj2 (C8_login_failures_indistinguishable
                         Examples.digest [Examples.admin])));
    [discriminate | discriminate | exact W].
Defined.

(** A registration with a role outside the known set succeeds and stores
    that role. *)
Lemma C9_unknown_role_is_stored :
  success (fst (register Examples.digest Examples.ids Examples.clock
                  [Examples.admin] 1
                  (Some "eve") (Some "secret") (Some "eve@example.com")
                  (Some "Superuser")))
  = true
  /\ map role (snd (register Examples.digest Examples.ids Examples.clock
                      [Examples.admin] 1
                      (Some "eve") (Some "secret") (Some "eve@example.com")
                      (Some "Superuser")))
     = ["Administrator"; "Superuser"]
  /\ existsb (String.eqb "Superuser") Spec.known_roles = false.
Proof. repeat split; reflexivity. Qed.

Lemma C9_register_stores_given_role_witness :
  success (fst (register Examples.digest Examples.ids Examples.clock
                  [Examples.admin] 1
                  (Some "eve") (Some "secret") (Some "eve@example.com")
                  None))
  = true
  /\ check_permission "Researcher" "manage_users" = false.
Proof.
  assert (H : success (fst (register Examples.digest Examples.ids
                              Examples.clock [Examples.admin] 1
                              (Some "eve") (Some "secret")
                              (Some "eve@example.com") None)) = true)
    by reflexivity.
  split; [exact H|].
  exact (proj2 (proj2 (proj2 (proj2
           (C9_register_stores_given_role Examples.digest Examples.ids
              Examples.clock [Examples.admin] 1
              (Some "eve") (Some "secret") (Some "eve@example.com")
              None H))))).
Defined.

Lemma C10_failed_register_keeps_store_witness :
  success (fst (register Examples.digest Examples.ids Examples.clock
                  [Examples.admin] 1
                  (Some "Admin") (Some "secret") (Some "a@example.com")
                  None))
  = false
  /\ snd (register Examples.digest Examples.ids Examples.clock
            [Examples.admin] 1
            (Some "Admin") (Some "secret") (Some "a@example.com") None)
     = [Examples.admin].
Proof.
  split; [reflexivity|].
  apply (proj2 (C10_failed_register_keeps_store Examples.digest Examples.ids
                  Examples.clock [Examples.admin] 1
                  (Some "Admin") (Some "secret") (Some "a@example.com")
                  None)).
  reflexivity.
Defined.

End AuthInstances.

(* ===================================================================== *)
(** * Further properties of the code *)
(* ===================================================================== *)

(** ** The order of strings *)

Section StringOrderFacts.
Import PyDict.

Lemma string_lt_trans (a b c : string) :
  String.compare a b = Lt -> String.compare b c = Lt ->
  String.compare a c = Lt.
Proof. exact (@StrictOrder_Transitive _ _ String_as_OT.lt_strorder a b c). Qed.

Lemma string_leb_trans (a b c : string) :
  String.leb a b = true -> String.leb b c = true -> String.leb a c = true.
Proof.
  unfold String.leb.
  destruct (String.compare a b) eqn:H1; try discriminate; intros _;
    destruct (String.compare b c) eqn:H2; try discriminate; intros _.
  - apply String.compare_eq_iff in H1, H2. subst.
    destruct (String.compare c c) eqn:E; auto.
    pose proof (String.compare_antisym c c) as A. rewrite E in A.
    discriminate A.
  - apply String.compare_eq_iff in H1. subst. now rewrite H2.
  - apply String.compare_eq_iff in H2. subst. now rewrite H1.
  - now rewrite (string_lt_trans a b c H1 H2).
Qed.

Lemma string_leb_false (a b : string) :
  String.leb a b = false -> String.leb b a = true.
Proof. destruct (String.leb_total a b); congruence. Qed.

Lemma string_leb_neq_ltb (a b : string) :
  String.leb a b = true -> a <> b -> String.ltb a b = true.
Proof.
  unfold String.leb, String.ltb.
  destruct (String.compare a b) eqn:E; try discriminate; [|reflexivity].
  apply String.compare_eq_iff in E. congruence.
Qed.

(** Sorting strings that are pairwise different gives a strictly
    increasing list. *)
Lemma sorted_str_strict (l : list string) :
  NoDup l ->
  StronglySorted (fun a b => String.ltb a b = true) (sorted_str l).
Proof.
  intros Hnd.
  assert (N : NoDup (sorted_str l)).
  { apply (Permutation_NoDup (Permutation_sym (sort_by_perm String.leb l))).
    exact Hnd. }
  assert (S : StronglySorted (fun a b => String.leb a b = true)
                (sorted_str l)).
  { apply sort_by_sorted; [exact string_leb_false | exact string_leb_trans]. }
  revert N. induction S as [|x s Hs IH Hx]; intros N; constructor.
  - apply IH. now inversion N.
  - inversion N as [|? ? Hnotin _]; subst.
    apply Forall_forall. intros y Hy.
    apply string_leb_neq_ltb.
    + exact (proj1 (Forall_forall _ _) Hx y Hy).
    + intros ->. contradiction.
Qed.

Lemma sorted_str_In (c : string) (l : list string) :
  In c (sorted_str (distinct l)) <-> In c l.
Proof.
  unfold sorted_str. split; intros H.
  - apply distinct_In.
    exact (Permutation_in c (sort_by_perm String.leb (distinct l)) H).
  - apply (Permutation_in c
             (Permutation_sym (sort_by_perm String.leb (distinct l)))).
    now apply distinct_In.
Qed.

End StringOrderFacts.

(** ** The database after a load *)

Section LoadFacts.
Import PyStr PyDict Database.
Variable uuid4 : nat -> string.
Variable now : nat -> string.

(** X1. [get_unique_countries] and [get_unique_mineral_names] list the
    countries, respectively the mineral names, of the record set, each
    once, in strictly increasing order of the strings. *)
Theorem unique_names_strictly_sorted (fs : Files) :
  StronglySorted (fun a b => String.ltb a b = true) (get_unique_countries fs)
  /\ (forall c, In c (get_unique_countries fs)
                <-> exists r, In r (get_all_minerals fs) /\ country r = c)
  /\ StronglySorted (fun a b => String.ltb a b = true)
       (get_unique_mineral_names fs)
  /\ (forall m, In m (get_unique_mineral_names fs)
                <-> exists r, In r (get_all_minerals fs)
                              /\ mineral_name r = m).
Proof.
  unfold get_unique_countries, get_unique_mineral_names.
  split; [|split; [|split]].
  - apply sorted_str_strict, distinct_NoDup.
  - intros c. rewrite sorted_str_In, in_map_iff.
    split; intros (r & A & B); exists r; now split.
  - apply sorted_str_strict, distinct_NoDup.
  - intros m. rewrite sorted_str_In, in_map_iff.
    split; intros (r & A & B); exists r; now split.
Qed.

Lemma deposits_of_load (df : list RawRow) (fs : Files) :
  get_all_deposits (load_excel_data uuid4 now (Some df) fs)
  = create_sample_deposits uuid4 (fst (normalize uuid4 now df)) df.
Proof.
  unfold load_excel_data, get_all_deposits.
  destruct (normalize uuid4 now df) as [k data]. reflexivity.
Qed.

Lemma length_normalize (df : list RawRow) :
  length (snd (normalize uuid4 now df))
  = list_sum (map (fun row => S (count_char "," (producing_countries row)))
                  df).
Proof.
  rewrite <- (length_map (fun r => (mineral_name r, country r, uses r))).
  unfold normalize. rewrite normalize_fields_from. cbn [snd map app].
  rewrite length_flat_map. f_equal. apply map_ext. intros row.
  now rewrite length_map, length_split.
Qed.

Lemma length_create_sample_deposits (k : nat) (df : list RawRow) :
  (length (create_sample_deposits uuid4 k df) <= length df)%nat.
Proof.
  unfold create_sample_deposits.
  pose proof (deposits_from uuid4 df k []) as H. cbv zeta in H.
  apply (f_equal (@length _)) in H. cbn [map app] in H.
  rewrite !length_map in H. rewrite H. apply filter_length_le.
Qed.

(** X2. After a load from a sheet there are at most as many deposits as
    the sheet has rows and at least as many records; the records number
    one per row plus one per comma in the rows' country strings. *)
Theorem counts_after_load (df : list RawRow) (fs : Files) :
  let fs' := load_excel_data uuid4 now (Some df) fs in
  count_deposits fs' <= Z.of_nat (length df) <= count_minerals fs'
  /\ count_minerals fs'
     = Z.of_nat (length df)
       + Z.of_nat (list_sum (map (fun row =>
                     count_char "," (producing_countries row)) df)).
Proof.
  cbv zeta. unfold count_deposits, count_minerals.
  rewrite deposits_of_load, minerals_of_load, length_normalize.
  pose proof (length_create_sample_deposits
                (fst (normalize uuid4 now df)) df) as Hd.
  assert (Hs : list_sum (map (fun row =>
                 S (count_char "," (producing_countries row))) df)
               = (length df
                  + list_sum (map (fun row =>
                      count_char "," (producing_countries row)) df))%nat).
  { clear. induction df as [|row df IH]; simpl; [reflexivity|].
    rewrite IH. lia. }
  rewrite Hs. lia.
Qed.

(** X3. When the workbook is missing, [load_excel_data] leaves what the
    two files hold as it is and only creates, empty, the file that does
    not exist: every query answers as before, both files exist
    afterwards, and a second such load changes nothing. *)
Theorem missing_sheet_keeps_data (fs : Files) :
  let fs' := load_excel_data uuid4 now None fs in
  get_all_minerals fs' = get_all_minerals fs
  /\ get_all_deposits fs' = get_all_deposits fs
  /\ (forall filters, search_minerals fs' filters = search_minerals fs filters)
  /\ (forall m c, get_deposits fs' m c = get_deposits fs m c)
  /\ minerals_file fs' = Some (get_all_minerals fs)
  /\ deposits_file fs' = Some (get_all_deposits fs)
  /\ load_excel_data uuid4 now None fs' = fs'.
Proof.
  cbv zeta.
  assert (Hm : get_all_minerals (load_excel_data uuid4 now None fs)
               = get_all_minerals fs).
  { unfold load_excel_data, create_empty_json_files, get_all_minerals.
    cbn. now destruct (minerals_file fs). }
  assert (Hd : get_all_deposits (load_excel_data uuid4 now None fs)
               = get_all_deposits fs).
  { unfold load_excel_data, create_empty_json_files, get_all_deposits.
    cbn. now destruct (deposits_file fs). }
  split; [exact Hm|]. split; [exact Hd|]. split; [|split].
  - intros filters. unfold search_minerals. now rewrite Hm.
  - intros m c. unfold get_deposits. now rewrite Hd.
  - unfold load_excel_data, create_empty_json_files, get_all_minerals,
      get_all_deposits. cbn.
    destruct (minerals_file fs), (deposits_file fs); repeat split.
Qed.

Lemma estimate_production_bound (m c : string) :
  300 <= estimate_production m c.
Proof.
  unfold estimate_production.
  destruct (dict_get production_data m) as [t|] eqn:E; [|lia].
  apply dict_get_In in E. simpl in E.
  repeat (destruct E as [E|E]; [inversion E; subst; clear E|]);
    try contradiction;
    (destruct (dict_get _ c) as [v|] eqn:F; [|lia]);
    apply dict_get_In in F; simpl in F;
    repeat (destruct F as [F|F]; [inversion F; subst; clear F|]);
    try contradiction; lia.
Qed.

Lemma estimate_price_bound (m : string) : 50 <= estimate_price m.
Proof.
  unfold estimate_price.
  destruct (dict_get prices m) as [p|] eqn:E; [|lia].
  apply dict_get_In in E. simpl in E.
  repeat (destruct E as [E|E]; [inversion E; subst; clear E|]);
    try contradiction; lia.
Qed.

(** X4. Every record and every deposit made by a load carries positive
    figures: a production of at least 300, reserves of at least 22500 and,
    for a record, a price of at least 50, the year 2024 and the unit
    "tonnes". *)
Theorem loaded_figures_positive (df : list RawRow) (fs : Files) :
  let fs' := load_excel_data uuid4 now (Some df) fs in
  Forall (fun r => 300 <= production_volume r /\ 22500 <= reserves r
                   /\ 50 <= price r /\ year r = 2024 /\ unit r = "tonnes")
         (get_all_minerals fs')
  /\ Forall (fun d => 300 <= d_annual_production d /\ 22500 <= d_reserves d)
            (get_all_deposits fs').
Proof.
  cbv zeta. rewrite minerals_of_load, deposits_of_load. split.
  - unfold normalize. apply normalize_built_from; [|constructor].
    intros i m c u. cbn. unfold estimate_reserves.
    pose proof (estimate_production_bound m c).
    pose proof (estimate_price_bound m). repeat split; lia.
  - unfold create_sample_deposits. apply deposits_built; [|constructor].
    intros i m c xy _. cbn. unfold estimate_reserves.
    pose proof (estimate_production_bound m c). lia.
Qed.

Lemma canonical_idem (tok : string) :
  Spec.canonical (Spec.canonical tok) = Spec.canonical tok.
Proof.
  destruct (canonical_facts tok) as [Hs Hc].
  now rewrite (canonical_plain _ Hc).
Qed.

Lemma first_normalized_country_eq (row : RawRow) :
  Spec.first_normalized_country row
  = Spec.canonical (hd "" (split "," (producing_countries row))).
Proof.
  rewrite <- first_country_eq. unfold Spec.canonical.
  symmetry. now apply strip_cut_strip.
Qed.

(** X5. Cleaning a country name a second time changes nothing, and the
    country of every loaded record is a name already clean: trimmed and
    without an opening parenthesis. *)
Theorem loaded_countries_are_clean (df : list RawRow) (fs : Files) :
  (forall tok, Spec.canonical (Spec.canonical tok) = Spec.canonical tok)
  /\ Forall (fun r => Spec.canonical (country r) = country r
                      /\ strip (country r) = country r
                      /\ count_char "(" (country r) = O)
            (get_all_minerals (load_excel_data uuid4 now (Some df) fs)).
Proof.
  split; [exact canonical_idem|].
  rewrite minerals_of_load. apply Forall_forall. intros r Hr.
  assert (H : In (mineral_name r, country r, uses r)
                (map (fun r => (mineral_name r, country r, uses r))
                     (snd (normalize uuid4 now df)))).
  { apply in_map_iff. now exists r. }
  unfold normalize in H. rewrite normalize_fields_from in H.
  cbn [snd map app] in H. apply in_flat_map in H.
  destruct H as (row & _ & H). apply in_map_iff in H.
  destruct H as (tok & [= _ <- _] & _).
  split; [apply canonical_idem | apply canonical_facts].
Qed.

(** X6. Every deposit of a load stands for a record of the same load: some
    record has the deposit's mineral and country, and the deposit's annual
    production and reserves are that record's production and reserves. *)
Theorem loaded_deposit_has_record (df : list RawRow) (fs : Files) :
  let fs' := load_excel_data uuid4 now (Some df) fs in
  Forall (fun d =>
            exists r, In r (get_all_minerals fs')
                      /\ mineral_name r = d_mineral d
                      /\ country r = d_country d
                      /\ production_volume r = d_annual_production d
                      /\ reserves r = d_reserves d)
         (get_all_deposits fs').
Proof.
  cbv zeta. rewrite minerals_of_load, deposits_of_load.
  set (k := fst (normalize uuid4 now df)).
  assert (Hfig : Forall (fun d =>
            d_reserves d = estimate_reserves (d_mineral d) (d_country d)
            /\ d_annual_production d
               = estimate_production (d_mineral d) (d_country d))
            (create_sample_deposits uuid4 k df)).
  { unfold create_sample_deposits. apply deposits_built; [|constructor].
    intros i m c xy _. now cbn. }
  assert (Hrec : Forall (fun r =>
            reserves r = estimate_reserves (mineral_name r) (country r)
            /\ production_volume r
               = estimate_production (mineral_name r) (country r))
            (snd (normalize uuid4 now df))).
  { unfold normalize. apply normalize_built_from; [|constructor].
    intros i m c u. now cbn. }
  apply Forall_forall. intros d Hd.
  assert (Hkey : In (d_mineral d, d_country d)
                   (map (fun d => (d_mineral d, d_country d))
                        (create_sample_deposits uuid4 k df))).
  { apply in_map_iff. now exists d. }
  unfold create_sample_deposits in Hkey.
  pose proof (deposits_from uuid4 df k []) as Hfrom. cbv zeta in Hfrom.
  rewrite Hfrom in Hkey. cbn [map app] in Hkey.
  apply in_map_iff in Hkey. destruct Hkey as (row & [= Em Ec] & Hrow).
  apply filter_In in Hrow. destruct Hrow as [Hrow _].
  assert (Hin : In (critical_mineral row,
                    Spec.first_normalized_country row, key_uses row)
                  (map (fun r => (mineral_name r, country r, uses r))
                       (snd (normalize uuid4 now df)))).
  { unfold normalize. rewrite normalize_fields_from. cbn [snd map app].
    apply in_flat_map. exists row. split; [exact Hrow|].
    rewrite first_normalized_country_eq.
    destruct (split_cons "," (producing_countries row)) as (t & ts & ->).
    now left. }
  apply in_map_iff in Hin. destruct Hin as (r & [= Rm Rc _] & Hr).
  exists r.
  destruct (proj1 (Forall_forall _ _) Hfig d Hd) as [D1 D2].
  destruct (proj1 (Forall_forall _ _) Hrec r Hr) as [R1 R2].
  rewrite D1, D2, R1, R2, Rm, Rc, Em, Ec. repeat split; assumption.
Qed.

End LoadFacts.

(** ** Queries *)

Section QueryFacts.
Import PyStr PyDict Database.

Lemma filter_twice {A : Type} (p q : A -> bool) (l : list A) :
  filter p (filter q l) = filter (fun x => q x && p x) l.
Proof.
  induction l as [|x l IH]; simpl; [reflexivity|].
  destruct (q x); simpl; [|exact IH].
  destruct (p x); now rewrite IH.
Qed.

Lemma lower_char_idem (c : ascii) : lower_char (lower_char c) = lower_char c.
Proof. destruct c as [[] [] [] [] [] [] [] []]; reflexivity. Qed.

Lemma lower_idem (s : string) : lower (lower s) = lower s.
Proof.
  induction s as [|c s IH]; simpl; [reflexivity|].
  now rewrite lower_char_idem, IH.
Qed.

Lemma lower_eqb_empty (v w : string) :
  lower v = lower w -> String.eqb v "" = String.eqb w "".
Proof. destruct v, w; simpl; try discriminate; reflexivity. Qed.

Lemma field_accepts_case (v w actual : string) :
  lower v = lower w ->
  Spec.field_accepts (Some v) actual = Spec.field_accepts (Some w) actual.
Proof.
  intros H. unfold Spec.field_accepts.
  now rewrite (lower_eqb_empty v w H), H.
Qed.

Lemma field_accepts_own (actual : string) :
  Spec.field_accepts (Some (lower actual)) actual = true.
Proof.
  unfold Spec.field_accepts.
  now rewrite lower_idem, String.eqb_refl, orb_true_r.
Qed.

(** X7. Searching by mineral name and country at once is searching by
    country within the records found by mineral name; a search returns
    records of the record set only; and searching again within the result
    of a search, with the same filter, returns that result. *)
Theorem search_narrows (fs : Files) (m c : option string) :
  let both := {| f_mineral_name := m; f_country := c |} in
  let by_name := {| f_mineral_name := m; f_country := None |} in
  let by_country := {| f_mineral_name := None; f_country := c |} in
  let within l := {| minerals_file := Some l;
                     deposits_file := deposits_file fs |} in
  search_minerals fs (Some both)
  = search_minerals (within (search_minerals fs (Some by_name)))
      (Some by_country)
  /\ search_minerals fs (Some both)
     = search_minerals (within (search_minerals fs (Some by_country)))
         (Some by_name)
  /\ Forall (fun r => In r (get_all_minerals fs))
            (search_minerals fs (Some both))
  /\ search_minerals (within (search_minerals fs (Some both))) (Some both)
     = search_minerals fs (Some both).
Proof.
  cbv zeta. rewrite !search_minerals_filter. cbn [get_all_minerals
    minerals_file]. rewrite !filter_twice.
  split; [|split; [|split]].
  - apply filter_ext. intros r. unfold Spec.accepts. cbn.
    now rewrite andb_true_r.
  - apply filter_ext. intros r. unfold Spec.accepts. cbn.
    rewrite andb_true_r. apply andb_comm.
  - apply Forall_forall. intros r Hr. now apply filter_In in Hr.
  - apply filter_ext. intros r. apply andb_diag.
Qed.

(** X8. A search does not look at the case of the filter's values: two
    values that are equal once lower-cased select the same records, and
    every record of the set is found by the lower-cased form of its own
    mineral name and country. *)
Theorem search_ignores_case (fs : Files) :
  (forall v w c,
     lower v = lower w ->
     search_minerals fs (Some {| f_mineral_name := Some v; f_country := c |})
     = search_minerals fs
         (Some {| f_mineral_name := Some w; f_country := c |}))
  /\ (forall v w m,
        lower v = lower w ->
        search_minerals fs
          (Some {| f_mineral_name := m; f_country := Some v |})
        = search_minerals fs
            (Some {| f_mineral_name := m; f_country := Some w |}))
  /\ Forall (fun r =>
               In r (search_minerals fs
                       (Some {| f_mineral_name :=
                                  Some (lower (mineral_name r));
                                f_country := Some (lower (country r)) |})))
            (get_all_minerals fs).
Proof.
  split; [|split].
  - intros v w c H. rewrite !search_minerals_filter. apply filter_ext.
    intros r. unfold Spec.accepts. cbn [f_mineral_name f_country].
    now rewrite (field_accepts_case v w _ H).
  - intros v w m H. rewrite !search_minerals_filter. apply filter_ext.
    intros r. unfold Spec.accepts. cbn [f_mineral_name f_country].
    now rewrite (field_accepts_case v w _ H).
  - apply Forall_forall. intros r Hr. rewrite search_minerals_filter.
    apply filter_In. split; [exact Hr|].
    unfold Spec.accepts. cbn [f_mineral_name f_country].
    now rewrite !field_accepts_own.
Qed.

(** X9. [get_minerals_by_country] finds every record under the record's
    own country; for a country name that is not empty it returns exactly
    the records of that country up to case, in the order of the set; for
    the empty name it returns the whole set. *)
Theorem minerals_by_country_exact (fs : Files) :
  Forall (fun r => In r (get_minerals_by_country fs (country r)))
         (get_all_minerals fs)
  /\ (forall c,
        c <> "" ->
        get_minerals_by_country fs c
        = filter (fun r => String.eqb (lower (country r)) (lower c))
                 (get_all_minerals fs))
  /\ get_minerals_by_country fs "" = get_all_minerals fs.
Proof.
  unfold get_minerals_by_country. split; [|split].
  - apply Forall_forall. intros r Hr. rewrite search_minerals_filter.
    apply filter_In. split; [exact Hr|].
    unfold Spec.accepts, Spec.field_accepts. cbn.
    now rewrite String.eqb_refl, orb_true_r.
  - intros c Hc. rewrite search_minerals_filter. apply filter_ext.
    intros r. unfold Spec.accepts, Spec.field_accepts. cbn.
    now destruct (String.eqb_spec c "").
  - rewrite search_minerals_filter. now apply filter_all.
Qed.

Lemma deposits_step_eq (m c : option string) (results : list Deposit)
  (d : Deposit) :
  deposits_step m c results d
  = if Spec.field_accepts m (d_mineral d)
       && Spec.field_accepts c (d_country d)
    then results ++ [d] else results.
Proof.
  unfold deposits_step, Spec.field_accepts, truthy.
  destruct m as [v|], c as [w|]; cbn;
    repeat match goal with
           | |- context [String.eqb ?a ?b] => destruct (String.eqb a b); cbn
           end; reflexivity.
Qed.

Lemma get_deposits_filter (fs : Files) (m c : option string) :
  get_deposits fs m c
  = filter (fun d => Spec.field_accepts m (d_mineral d)
                     && Spec.field_accepts c (d_country d))
           (get_all_deposits fs).
Proof.
  unfold get_deposits.
  destruct (negb (truthy m) && negb (truthy c)) eqn:E.
  - symmetry. apply filter_all. intros d.
    apply andb_true_iff in E. destruct E as [Em Ec].
    unfold Spec.field_accepts, truthy in *.
    destruct m as [v|], c as [w|]; cbn in *;
      try (destruct (String.eqb v "")); try (destruct (String.eqb w ""));
      try discriminate; reflexivity.
  - generalize (get_all_deposits fs) as ds.
    assert (H : forall ds acc,
              fold_left (deposits_step m c) ds acc
              = acc ++ filter (fun d => Spec.field_accepts m (d_mineral d)
                                 && Spec.field_accepts c (d_country d)) ds).
    { induction ds as [|d ds IH]; intros acc; simpl.
      - now rewrite app_nil_r.
      - rewrite IH, deposits_step_eq.
        destruct (Spec.field_accepts m (d_mineral d)
                  && Spec.field_accepts c (d_country d));
          [now rewrite <- app_assoc | reflexivity]. }
    intros ds. now rewrite H.
Qed.

(** X10. [get_deposits] returns, in the order of the file, the deposits
    whose mineral and country both pass: a filter that is [None] or empty
    lets everything pass, any other must equal the deposit's field up to
    case.  With no filter it returns every deposit, an empty filter is the
    same as none, and filtering by mineral and country at once is
    filtering by country within the deposits found by mineral. *)
Theorem get_deposits_exact (fs : Files) (m c : option string) :
  let within l := {| minerals_file := minerals_file fs;
                     deposits_file := Some l |} in
  get_deposits fs m c
  = filter (fun d =>
              match m with
              | Some v => String.eqb v ""
                          || String.eqb (lower (d_mineral d)) (lower v)
              | None => true
              end
              && match c with
                 | Some w => String.eqb w ""
                             || String.eqb (lower (d_country d)) (lower w)
                 | None => true
                 end)
           (get_all_deposits fs)
  /\ get_deposits fs None None = get_all_deposits fs
  /\ get_deposits fs (Some "") c = get_deposits fs None c
  /\ get_deposits fs m (Some "") = get_deposits fs m None
  /\ get_deposits fs m c = get_deposits (within (get_deposits fs m None)) None c.
Proof.
  cbv zeta. split; [apply get_deposits_filter|]. split; [reflexivity|].
  rewrite !get_deposits_filter. cbn [get_all_deposits deposits_file].
  split; [|split].
  - apply filter_ext. intros d. reflexivity.
  - apply filter_ext. intros d. reflexivity.
  - rewrite filter_twice. apply filter_ext. intros d. cbn.
    now rewrite andb_true_r.
Qed.

End QueryFacts.

(** ** Aggregates *)

Section AggregateFacts.
Import PyStr PyDict Database Analytics.
Variable uuid4 : nat -> string.
Variable now : nat -> string.

Lemma fold_add_from (l : list Z) (a : Z) :
  fold_left Z.add l a = a + fold_left Z.add l 0.
Proof.
  revert a. induction l as [|x l IH]; intros a; simpl; [lia|].
  rewrite (IH (a + x)), (IH x). lia.
Qed.

Lemma py_sum_cons (x : Z) (l : list Z) : py_sum (x :: l) = x + py_sum l.
Proof. unfold py_sum. simpl. now rewrite fold_add_from. Qed.

Lemma py_sum_perm (l l' : list Z) :
  Permutation l l' -> py_sum l = py_sum l'.
Proof.
  induction 1 as [|x l l' _ IH|x y l|l l' l'' _ IH1 _ IH2];
    rewrite ?py_sum_cons; lia.
Qed.

Lemma py_sum_dict_add (d : list (string * Z)) (k : string) (v : Z) :
  py_sum (map snd (dict_add d k v)) = py_sum (map snd d) + v.
Proof.
  induction d as [|[k' w] d IH]; cbn [dict_add map snd].
  - rewrite py_sum_cons. cbn. lia.
  - destruct (String.eqb k' k); cbn [map snd]; rewrite !py_sum_cons;
      [lia | rewrite IH; lia].
Qed.

(** The totals of the groups add up to the production of the records. *)
Lemma py_sum_groups (rs : list MineralRecord) :
  py_sum (map snd (Spec.groups rs)) = py_sum (map production_volume rs).
Proof.
  rewrite <- country_production_groups. unfold country_production.
  assert (H : forall ms d,
            py_sum (map snd
                      (fold_left (fun d m => dict_add d (country m)
                                               (production_volume m)) ms d))
            = py_sum (map snd d) + py_sum (map production_volume ms)).
  { induction ms as [|m ms IH]; intros d; cbn [fold_left map].
    - cbn. lia.
    - rewrite IH, py_sum_dict_add, py_sum_cons. lia. }
  rewrite H. cbn. lia.
Qed.

Lemma groups_keys (rs : list MineralRecord) :
  map fst (Spec.groups rs) = Spec.first_seen (map country rs).
Proof.
  unfold Spec.groups. rewrite map_map. cbn [fst]. apply map_id.
Qed.

Lemma combine_fst_snd {A B : Type} (l : list (A * B)) :
  combine (map fst l) (map snd l) = l.
Proof.
  induction l as [|[a b] l IH]; simpl; [reflexivity|]. now rewrite IH.
Qed.

(** X11. The pie chart and the bar chart of a mineral show the same
    figures: both are absent when no record matches, and otherwise the
    pie's countries, each listed once, paired with its values are the
    groups of the matching records by country, the bar chart's pairs are
    a rearrangement of them, and in either chart the values add up to the
    production of the matching records. *)
Theorem market_share_matches_production (fs : Files) (mineral : string) :
  let matching :=
    search_minerals fs
      (Some {| f_mineral_name := Some mineral; f_country := None |}) in
  match generate_market_share_pie fs mineral,
        generate_production_by_country fs mineral with
  | None, None => matching = []
  | Some (countries, production), Some bars =>
      combine countries production = Spec.groups matching
      /\ length countries = length production
      /\ NoDup countries
      /\ Permutation bars (combine countries production)
      /\ NoDup (map fst bars)
      /\ py_sum production = py_sum (map production_volume matching)
      /\ py_sum (map snd bars) = py_sum (map production_volume matching)
  | _, _ => False
  end.
Proof.
  cbv zeta.
  unfold generate_market_share_pie, generate_production_by_country.
  destruct (search_minerals fs _) as [|r rs] eqn:E; [reflexivity|].
  rewrite country_production_groups.
  set (g := Spec.groups (r :: rs)).
  assert (P : Permutation (sorted_by_value_desc g) g)
    by apply sorted_by_value_desc_perm.
  assert (N : NoDup (map fst g)).
  { unfold g. rewrite groups_keys. apply first_seen_NoDup. }
  rewrite combine_fst_snd. repeat split.
  - now rewrite !length_map.
  - exact N.
  - exact P.
  - apply (Permutation_NoDup (Permutation_map fst (Permutation_sym P))).
    exact N.
  - apply py_sum_groups.
  - rewrite (py_sum_perm _ _ (Permutation_map snd P)). apply py_sum_groups.
Qed.

Lemma max_by_value_hd (l : list (string * Z)) :
  max_by_value l = hd_error (sorted_by_value_desc l).
Proof.
  unfold sorted_by_value_desc.
  induction l as [|x l IH]; [reflexivity|].
  cbn [max_by_value sort_by fold_right].
  fold (sort_by (fun a b : string * Z => snd b <=? snd a) l).
  rewrite IH.
  destruct (sort_by (fun a b : string * Z => snd b <=? snd a) l)
    as [|y s]; [reflexivity|].
  cbn [hd_error insert_by].
  destruct (Z.leb_spec (snd y) (snd x)), (Z.ltb_spec (snd x) (snd y));
    try reflexivity; lia.
Qed.

Lemma max_by_value_greatest (l : list (string * Z)) (y : string * Z) :
  max_by_value l = Some y -> Forall (fun x => snd x <= snd y) l.
Proof.
  revert y. induction l as [|x l IH]; intros y; [constructor|].
  cbn [max_by_value].
  destruct (max_by_value l) as [z|] eqn:E.
  - specialize (IH z eq_refl).
    destruct (Z.ltb_spec (snd x) (snd z)); intros [= <-].
    + constructor; [lia | exact IH].
    + constructor; [lia|].
      eapply Forall_impl; [|exact IH]. intros a Ha. cbn in Ha. lia.
  - intros [= <-]. constructor; [lia|].
    destruct l as [|a l]; [constructor|].
    cbn [max_by_value] in E. destruct (max_by_value l) as [z|];
      [destruct (snd a <? snd z)|]; discriminate.
Qed.

Lemma hd_slice_to {B : Type} (d : B) (l : list B) (n : Z) :
  1 <= n -> hd d (slice_to l n) = hd d l.
Proof.
  intros H. unfold slice_to. destruct (Z.leb_spec 0 n); [|lia].
  destruct (Z.to_nat n) as [|k] eqn:E; [lia|]. now destruct l.
Qed.

(** What [get_summary_statistics] returns, when it returns. *)
Lemma summary_statistics_fields (fs : Files) (stats : Stats) :
  get_summary_statistics fs = Some stats ->
  total_production stats
  = py_sum (map production_volume (get_all_minerals fs))
  /\ total_reserves stats = py_sum (map reserves (get_all_minerals fs))
  /\ (top_producer stats, top_producer_volume stats)
     = match max_by_value (Spec.groups (get_all_minerals fs)) with
       | Some top => top
       | None => ("N/A", 0)
       end.
Proof.
  unfold get_summary_statistics. rewrite country_production_groups.
  destruct (match get_all_minerals fs with
            | [] => Some (PyInt 0)
            | _ :: _ => _
            end) as [avg|]; [|discriminate].
  destruct (Spec.groups (get_all_minerals fs)) as [|x l].
  - intros [= <-]. repeat split.
  - destruct (max_by_value_cons x l) as [y ->].
    intros [= <-]. repeat split. now destruct y.
Qed.

Lemma slice_to_nil {B : Type} (l : list B) (n : Z) :
  1 <= n -> slice_to l n = [] -> l = [].
Proof.
  intros H. unfold slice_to. destruct (Z.leb_spec 0 n); [|lia].
  destruct (Z.to_nat n) as [|k] eqn:E; [lia|]. now destruct l.
Qed.

Lemma groups_nil (rs : list MineralRecord) : Spec.groups rs = [] -> rs = [].
Proof. now destruct rs. Qed.

(** X12. Whenever [get_summary_statistics] returns, its top producer and
    volume are the first entry of the ranking of top producers for any
    limit of at least 1; the ranking has no entry only on an empty record
    set, where the summary holds the placeholder "N/A" with volume 0; and
    no country's total exceeds the top producer's volume. *)
Theorem top_producer_heads_ranking (fs : Files) (limit : Z) (stats : Stats) :
  1 <= limit ->
  get_summary_statistics fs = Some stats ->
  match generate_top_producers fs limit with
  | [] => get_all_minerals fs = []
          /\ top_producer stats = "N/A" /\ top_producer_volume stats = 0
  | first :: _ => first = (top_producer stats, top_producer_volume stats)
  end
  /\ Forall (fun x => snd x <= top_producer_volume stats)
            (Spec.groups (get_all_minerals fs)).
Proof.
  intros Hl Hs.
  destruct (summary_statistics_fields fs stats Hs) as (_ & _ & Htop).
  unfold generate_top_producers. rewrite country_production_groups.
  set (g := Spec.groups (get_all_minerals fs)) in *.
  rewrite max_by_value_hd in Htop.
  assert (Hhd : forall d, hd d (slice_to (sorted_by_value_desc g) limit)
                          = hd d (sorted_by_value_desc g))
    by (intros d; now apply hd_slice_to).
  split.
  - destruct (slice_to (sorted_by_value_desc g) limit) as [|x l] eqn:E.
    + apply slice_to_nil in E; [|exact Hl].
      assert (Hg : g = []).
      { apply Permutation_nil. rewrite <- E.
        apply sorted_by_value_desc_perm. }
      rewrite E in Htop. cbn in Htop. injection Htop as -> ->.
      split; [|split; reflexivity]. now apply groups_nil.
    + specialize (Hhd x). cbn [hd] in Hhd.
      destruct (sorted_by_value_desc g) as [|y s0].
      * exfalso. unfold slice_to in E.
        destruct (0 <=? limit); rewrite firstn_nil in E; discriminate E.
      * cbn in Hhd, Htop. congruence.
  - rewrite <- max_by_value_hd in Htop.
    destruct (max_by_value g) as [y|] eqn:E.
    + apply max_by_value_greatest in E.
      replace (top_producer_volume stats) with (snd y)
        by (now rewrite <- Htop). exact E.
    + destruct g; [constructor|].
      destruct (max_by_value_cons p g) as [z Hz]. congruence.
Qed.

Lemma slice_to_all {B : Type} (l : list B) (n : Z) :
  Z.of_nat (length l) <= n -> slice_to l n = l.
Proof.
  intros H. unfold slice_to. destruct (Z.leb_spec 0 n); [|lia].
  apply firstn_all2. lia.
Qed.

Lemma py_sum_scaled (rs : list MineralRecord) :
  Forall (fun r => reserves r = production_volume r * 75) rs ->
  py_sum (map reserves rs) = py_sum (map production_volume rs) * 75.
Proof.
  induction 1 as [|r rs Hr _ IH]; [reflexivity|].
  cbn [map]. rewrite !py_sum_cons, IH, Hr. lia.
Qed.

(** X13. With a limit of at least the number of countries the ranking of
    top producers lists every country of the record set, each once, and,
    whenever the summary returns, the totals the ranking shows add up to
    the summary's total production; and whenever the summary of the
    records of a load returns, its total reserves are 75 times its total
    production. *)
Theorem summary_totals_consistent :
  (forall fs limit,
     count_countries fs <= limit ->
     generate_top_producers fs limit
     = generate_top_producers fs (count_countries fs)
     /\ NoDup (map fst (generate_top_producers fs limit))
     /\ (forall c, In c (map fst (generate_top_producers fs limit))
                   <-> In c (map country (get_all_minerals fs)))
     /\ (forall stats,
           get_summary_statistics fs = Some stats ->
           py_sum (map snd (generate_top_producers fs limit))
           = total_production stats))
  /\ (forall df fs0 stats,
        get_summary_statistics
          (load_excel_data uuid4 now (Some df) fs0) = Some stats ->
        total_reserves stats = total_production stats * 75).
Proof.
  split.
  - intros fs limit Hl.
    unfold generate_top_producers.
    rewrite country_production_groups.
    set (g := Spec.groups (get_all_minerals fs)).
    assert (P : Permutation (sorted_by_value_desc g) g)
      by apply sorted_by_value_desc_perm.
    rewrite count_countries_groups in *. fold g in Hl |- *.
    rewrite (Permutation_length (Permutation_sym P)) in Hl |- *.
    rewrite !slice_to_all by lia.
    split; [reflexivity|]. split; [|split].
    + apply (Permutation_NoDup (Permutation_map fst (Permutation_sym P))).
      unfold g. rewrite groups_keys. apply first_seen_NoDup.
    + intros c. split; intros H.
      * apply first_seen_In. rewrite <- groups_keys. fold g.
        exact (Permutation_in c (Permutation_map fst P) H).
      * apply (Permutation_in c (Permutation_map fst (Permutation_sym P))).
        unfold g. rewrite groups_keys. now apply first_seen_In.
    + intros stats Hs.
      destruct (summary_statistics_fields fs stats Hs) as (Ht & _ & _).
      rewrite Ht, (py_sum_perm _ _ (Permutation_map snd P)).
      apply py_sum_groups.
  - intros df fs0 stats Hs.
    destruct (summary_statistics_fields _ stats Hs) as (Ht & Hr & _).
    rewrite Ht, Hr.
    apply py_sum_scaled. rewrite minerals_of_load. unfold normalize.
    apply normalize_built_from; [|constructor]. intros i m c u. now cbn.
Qed.

End AggregateFacts.

(** ** Permissions *)

Section PermissionFacts.
Import PyStr PyDict Auth.

(** X19. [check_permission] grants nothing to a role outside the table
    (role names are compared as they are, case included); editing,
    deleting and managing users are granted to "Administrator" alone; and
    each of the three roles may view. *)
Theorem check_permission_closed :
  (forall r p, check_permission r p = true -> In r Spec.known_roles)
  /\ (forall r p,
        In p ["edit_all"; "delete_all"; "manage_users"] ->
        (check_permission r p = true <-> r = "Administrator"))
  /\ (forall r, In r Spec.known_roles -> check_permission r "view_all" = true)
  /\ check_permission "administrator" "view_all" = false.
Proof.
  assert (K : forall r p, check_permission r p = true ->
                          In r Spec.known_roles).
  { intros r p. unfold check_permission.
    destruct (dict_get role_permissions r) as [perms|] eqn:E;
      [|discriminate].
    intros _. apply dict_get_In in E. simpl in E.
    destruct E as [E|[E|[E|[]]]]; inversion E; cbn; tauto. }
  split; [exact K|]. split; [|split; [|reflexivity]].
  - intros r p Hp. split.
    + intros H. pose proof (K r p H) as Hr. cbn in Hr.
      destruct Hr as [<-|[<-|[<-|[]]]]; [reflexivity| |];
        cbn in Hp; destruct Hp as [<-|[<-|[<-|[]]]]; discriminate H.
    + intros ->. cbn in Hp. destruct Hp as [<-|[<-|[<-|[]]]]; reflexivity.
  - intros r Hr. cbn in Hr. destruct Hr as [<-|[<-|[<-|[]]]]; reflexivity.
Qed.

End PermissionFacts.

(** ** Accounts over several calls *)

Section AccountFacts.
Import PyStr PyDict Auth.
Variable hash_password : string -> string.
Variable uuid4 : nat -> string.
Variable now : nat -> string.

Lemma find_snoc {A : Type} (f : A -> bool) (l : list A) (x : A) :
  find f (l ++ [x])
  = match find f l with
    | Some y => Some y
    | None => if f x then Some x else None
    end.
Proof.
  induction l as [|a l IH]; simpl; [reflexivity|].
  destruct (f a); [reflexivity | exact IH].
Qed.

Lemma lower_nonempty (v w : string) :
  lower v = lower w -> w <> "" -> v <> "".
Proof.
  intros H Hw ->. destruct w; [congruence | discriminate H].
Qed.

(** What a successful [register] tells about the store it was given. *)
Lemma register_success_fresh (users : list User) (k : nat)
  (name : string) (pw em role_ : option string) :
  success (fst (register hash_password uuid4 now users k (Some name)
                  pw em role_)) = true ->
  name <> ""
  /\ existsb (fun u => String.eqb (lower (username u)) (lower name)) users = false.
Proof.
  unfold register.
  destruct (truthy (Some name)) eqn:Tn; cbn [negb orb]; [|discriminate].
  apply truthy_some in Tn.
  destruct (negb (truthy pw) || negb (truthy em)); [discriminate|].
  destruct pw as [secret|], em as [mail|]; try discriminate.
  destruct (existsb _ users) eqn:E; [discriminate|]. now split.
Qed.

Lemma find_fresh (users : list User) (un name : string) :
  existsb (fun u => String.eqb (lower (username u)) (lower name)) users = false ->
  lower un = lower name ->
  find (fun u => String.eqb (lower (username u)) (lower un)) users = None.
Proof.
  intros E H. destruct (find _ users) as [u|] eqn:F; [|reflexivity].
  apply find_some in F. destruct F as [Hin Hm]. rewrite H in Hm.
  assert (X : existsb (fun u => String.eqb (lower (username u)) (lower name)) users = true).
  { apply existsb_exists. now exists u. }
  congruence.
Qed.

(** X14. After a successful registration, logging in with the password
    given at registration and the username in any case succeeds, and
    returns the identifier, username, email and role of the new
    account. *)
Theorem register_then_login (users : list User) (k : nat)
  (name secret mail un : string) (role_ : option string) :
  success (fst (register hash_password uuid4 now users k
                  (Some name) (Some secret) (Some mail) role_)) = true ->
  lower un = lower name ->
  login hash_password
    (snd (register hash_password uuid4 now users k
            (Some name) (Some secret) (Some mail) role_))
    (Some un) (Some secret)
  = {| success := true;
       message := "Login successful";
       user := Some {| i_id := uuid4 k;
                       i_username := name;
                       i_email := mail;
                       i_role := match role_ with
                                 | Some r => r
                                 | None => "Researcher"
                                 end |} |}.
Proof.
  intros H Hun.
  destruct (register_success_fresh users k name _ _ _ H) as [Hn Hfresh].
  destruct (register_success hash_password uuid4 now users k _ _ _ _ H)
    as (n & s & m & [= <-] & [= <-] & [= <-] & ->).
  cbn [snd]. unfold login.
  assert (Ts : secret <> "").
  { intros ->. unfold register in H. cbn in H.
    rewrite orb_true_r in H. discriminate H. }
  rewrite (proj2 (truthy_some un) (lower_nonempty _ _ Hun Hn)),
    (proj2 (truthy_some secret) Ts).
  cbn [negb orb]. rewrite find_snoc, (find_fresh users un name Hfresh Hun).
  cbn [username]. rewrite Hun, String.eqb_refl.
  cbn [password]. rewrite String.eqb_refl. reflexivity.
Qed.

(** X15. A successful registration appends one account and leaves the
    accounts there were in place, so every login that succeeded before
    it succeeds after it with the same answer, and every login under a
    name other than the new one, up to case, is answered as before. *)
Theorem register_keeps_other_logins (users : list User) (k : nat)
  (name : string) (pw em role_ : option string) :
  let users' := snd (register hash_password uuid4 now users k (Some name)
                       pw em role_) in
  success (fst (register hash_password uuid4 now users k (Some name)
                  pw em role_)) = true ->
  (exists u, users' = users ++ [u])
  /\ (forall un p,
        success (login hash_password users un p) = true ->
        login hash_password users' un p = login hash_password users un p)
  /\ (forall un p,
        lower un <> lower name ->
        login hash_password users' (Some un) p
        = login hash_password users (Some un) p).
Proof.
  cbv zeta. intros H.
  destruct (register_success hash_password uuid4 now users k _ _ _ _ H)
    as (n & s & m & [= <-] & -> & -> & ->).
  cbn [snd]. split; [eexists; reflexivity|]. split.
  - intros un p. unfold login.
    destruct (negb (truthy un) || negb (truthy p)); [reflexivity|].
    destruct un as [un|], p as [p|]; try reflexivity.
    rewrite find_snoc.
    destruct (find (fun u => String.eqb (lower (username u)) (lower un)) users) as [u|];
      [reflexivity | discriminate].
  - intros un p Hne. unfold login.
    destruct (negb (truthy (Some un)) || negb (truthy p)); [reflexivity|].
    destruct p as [p|]; [|reflexivity].
    rewrite find_snoc. cbn [username].
    destruct (find (fun u => String.eqb (lower (username u)) (lower un)) users) as [u|]; [reflexivity|].
    destruct (String.eqb_spec (lower name) (lower un)) as [E|_];
      [congruence | reflexivity].
Qed.

(** X16. [register] keeps the usernames of the store pairwise different up
    to case: if they are before a call, they are after it, whatever the
    arguments and the outcome. *)
Theorem register_keeps_usernames_unique (users : list User) (k : nat)
  (un pw em role_ : option string) :
  NoDup (map (fun u => lower (username u)) users) ->
  NoDup (map (fun u => lower (username u))
             (snd (register hash_password uuid4 now users k un pw em role_))).
Proof.
  intros Hnd.
  destruct (success (fst (register hash_password uuid4 now users k
                            un pw em role_))) eqn:H.
  - destruct (register_success hash_password uuid4 now users k _ _ _ _ H)
      as (n & s & m & -> & -> & -> & E).
    destruct (register_success_fresh users k n _ _ _ H) as [_ Hfresh].
    rewrite E. cbn [snd]. rewrite map_app. cbn [map username].
    apply NoDup_app; [exact Hnd | repeat constructor; intros [] |].
    intros a Ha [<-|[]]. apply in_map_iff in Ha.
    destruct Ha as (u & Hu & Hin).
    assert (X : existsb (fun u => String.eqb (lower (username u)) (lower n)) users = true).
    { apply existsb_exists. exists u. split; [exact Hin|].
      now apply String.eqb_eq. }
    congruence.
  - unfold register in *.
    destruct (negb (truthy un) || negb (truthy pw) || negb (truthy em));
      [exact Hnd|].
    destruct un as [n|], pw as [s|], em as [m|]; try exact Hnd.
    destruct (existsb _ users); [exact Hnd | discriminate H].
Qed.

(** X17. Once a username is registered, registering it again in any case
    is refused with "Username already exists" and leaves the store as it
    is, whatever password, email and role come with it. *)
Theorem second_registration_refused (users : list User) (k k' : nat)
  (name un : string) (pw em role_ pw' em' role' : option string) :
  let users' := snd (register hash_password uuid4 now users k (Some name)
                       pw em role_) in
  success (fst (register hash_password uuid4 now users k (Some name)
                  pw em role_)) = true ->
  lower un = lower name ->
  truthy pw' = true -> truthy em' = true ->
  register hash_password uuid4 now users' k' (Some un) pw' em' role'
  = (failure "Username already exists", users').
Proof.
  cbv zeta. intros H Hun Tp Te.
  destruct (register_success_fresh users k name _ _ _ H) as [Hn _].
  destruct (register_success hash_password uuid4 now users k _ _ _ _ H)
    as (n & s & m & [= <-] & -> & -> & ->).
  cbn [snd]. unfold register at 1.
  rewrite (proj2 (truthy_some un) (lower_nonempty _ _ Hun Hn)), Tp, Te.
  cbn [negb orb].
  destruct pw' as [s'|], em' as [m'|]; try discriminate.
  rewrite existsb_app. cbn [existsb username].
  now rewrite Hun, String.eqb_refl, orb_true_r.
Qed.

(** X18. [login] succeeds only for a stored account: a successful answer
    carries the identifier, username, email and role of an account of
    the store whose username equals the one given up to case and whose
    stored password is the digest of the one given; and both were given
    and not empty. *)
Theorem login_success_sound (users : list User) (un pw : option string) :
  success (login hash_password users un pw) = true ->
  exists name secret u,
    un = Some name /\ pw = Some secret /\ name <> "" /\ secret <> ""
    /\ In u users
    /\ lower (username u) = lower name
    /\ password u = hash_password secret
    /\ login hash_password users un pw
       = {| success := true; message := "Login successful";
            user := Some {| i_id := id u; i_username := username u;
                            i_email := email u; i_role := role u |} |}.
Proof.
  unfold login.
  destruct (truthy un) eqn:Tu; cbn [negb orb]; [|discriminate].
  destruct (truthy pw) eqn:Tp; cbn [negb orb]; [|discriminate].
  destruct un as [name|], pw as [secret|]; try discriminate.
  apply truthy_some in Tu, Tp.
  destruct (find _ users) as [u|] eqn:F; [|discriminate].
  apply find_some in F. destruct F as [Hin Hm].
  apply String.eqb_eq in Hm.
  destruct (String.eqb_spec (hash_password secret) (password u)) as [E|_];
    cbn [negb]; [|discriminate].
  intros _. exists name, secret, u. repeat split; auto.
Qed.

(** X20. [ensure_file_exists] leaves an existing file as it is, writes the
    three default accounts when there is none, and changes nothing when
    run again.  The default accounts have usernames that differ up to
    case and roles from the table, and each logs in with its default
    password, the username in any case. *)
Theorem default_accounts_log_in :
  (forall users, ensure_file_exists hash_password uuid4 now (Some users)
                 = users)
  /\ (forall f,
        ensure_file_exists hash_password uuid4 now
          (Some (ensure_file_exists hash_password uuid4 now f))
        = ensure_file_exists hash_password uuid4 now f)
  /\ NoDup (map (fun u => lower (username u))
                (ensure_file_exists hash_password uuid4 now None))
  /\ Forall (fun u => In (role u) Spec.known_roles)
            (ensure_file_exists hash_password uuid4 now None)
  /\ (forall un default_password expected_role,
        In (un, default_password, expected_role)
           [ ("admin", "admin123", "Administrator");
             ("investor1", "investor123", "Investor");
             ("researcher1", "research123", "Researcher") ] ->
        forall typed,
          lower typed = un ->
          exists info,
            login hash_password
              (ensure_file_exists hash_password uuid4 now None)
              (Some typed) (Some default_password)
            = {| success := true; message := "Login successful";
                 user := Some info |}
            /\ i_username info = un /\ i_role info = expected_role).
Proof.
  split; [reflexivity|]. split; [reflexivity|]. split; [|split].
  - cbn. repeat constructor; cbn; intuition discriminate.
  - cbn. repeat constructor; cbn; tauto.
  - intros un dp er Hin typed Ht. subst un.
    assert (Hne : typed <> "").
    { intros ->. cbn in Hin.
      destruct Hin as [E|[E|[E|[]]]]; discriminate E. }
    unfold login. rewrite (proj2 (truthy_some typed) Hne).
    cbn in Hin.
    destruct Hin as [E|[E|[E|[]]]]; injection E as E1 <- <-;
      change (truthy (Some _)) with true; cbn [negb orb];
      unfold ensure_file_exists, default_users; cbn [find username];
      rewrite <- E1; cbn; rewrite String.eqb_refl; cbn;
      eexists; repeat split.
Qed.

End AccountFacts.

(** ** The routes and the map colours *)

Section RouteFacts.
Import PyStr PyDict Database.

Lemma login_required_eq {A : Type} (session : list (string * string))
  (f : Datatypes.unit -> App.Response A) :
  App.login_required session f
  = if dict_mem session "user_id" then f tt
    else App.Redirect ("Please log in to access this page.", "warning")
           "login".
Proof. unfold App.login_required. now destruct (dict_mem session "user_id"). Qed.

(** X21. Without a [user_id] in the session the [/minerals] route shows
    no record: it flashes a warning and redirects to the login page.
    With one it renders [minerals.html], and, as it passes on only the
    query parameters that are given and not empty, the records it shows
    are exactly the ones that match each such parameter up to case, in
    the order of the record set (every record with no parameter or empty
    ones), beside the sorted names of all minerals and countries and the
    parameters as they came. *)
Theorem minerals_route_exact (session : list (string * string)) (fs : Files)
  (m c : option string) :
  App.minerals session fs m c
  = if dict_mem session "user_id"
    then App.Render "minerals.html"
           {| App.page_minerals :=
                Spec.search (get_all_minerals fs)
                  {| f_mineral_name := if truthy m then m else None;
                     f_country := if truthy c then c else None |};
              App.all_minerals := get_unique_mineral_names fs;
              App.all_countries := get_unique_countries fs;
              App.selected_mineral := m;
              App.selected_country := c |}
    else App.Redirect ("Please log in to access this page.", "warning")
           "login".
Proof.
  unfold App.minerals. rewrite login_required_eq.
  destruct (dict_mem session "user_id"); [|reflexivity].
  cbv zeta. f_equal. f_equal.
  rewrite search_minerals_filter.
  unfold Spec.search. apply filter_ext. intros r.
  unfold Spec.accepts, Spec.matches, Spec.field_accepts, Spec.field_matches,
    truthy.
  destruct m as [v|], c as [w|]; cbn;
    try (destruct (String.eqb v "") eqn:Ev);
    try (destruct (String.eqb w "") eqn:Ew);
    cbn; rewrite ?Ev, ?Ew; reflexivity.
Qed.

Lemma fold_left_snoc_map {A B : Type} (g : A -> B) (l : list A)
  (acc : list B) :
  fold_left (fun acc x => acc ++ [g x]) l acc = acc ++ map g l.
Proof.
  revert acc. induction l as [|x l IH]; intros acc; simpl.
  - now rewrite app_nil_r.
  - now rewrite IH, <- app_assoc.
Qed.

Lemma distinct_length (l : list string) :
  (length (distinct l) <= length l)%nat
  /\ (l <> [] -> 1 <= length (distinct l))%nat.
Proof.
  split.
  - induction l as [|x l IH]; simpl; [lia|].
    destruct (existsb (String.eqb x) l); simpl; lia.
  - intros H. destruct l as [|x l]; [congruence|].
    assert (Hin : In x (distinct (x :: l))) by (apply distinct_In; now left).
    destruct (distinct (x :: l)); [contradiction | simpl; lia].
Qed.

(** X22. Without a [user_id] in the session the [/countries] route lists
    nothing: it flashes a warning and redirects to the login page.  With
    one it renders [countries.html] with one entry for each country of
    the record set, in increasing order of the names, and gives each at
    least one record and at least one mineral, never more minerals than
    records; the number of records is that of the records found under the
    country's name. *)
Theorem countries_route_counts (session : list (string * string))
  (fs : Files) :
  match App.countries session fs with
  | App.Redirect flashed endpoint =>
      dict_mem session "user_id" = false
      /\ flashed = ("Please log in to access this page.", "warning")
      /\ endpoint = "login"
  | App.Render template country_data =>
      dict_mem session "user_id" = true
      /\ template = "countries.html"
      /\ map App.name country_data = get_unique_countries fs
      /\ Forall (fun e =>
                   App.total_records e
                   = Z.of_nat (length (get_minerals_by_country fs
                                         (App.name e)))
                   /\ 1 <= App.mineral_count e <= App.total_records e)
                country_data
  end.
Proof.
  unfold App.countries. rewrite login_required_eq.
  destruct (dict_mem session "user_id"); [|repeat split].
  cbv zeta.
  rewrite (fold_left_snoc_map
             (fun c => {| App.name := c;
                          App.mineral_count :=
                            Z.of_nat (length (distinct (map mineral_name
                                        (get_minerals_by_country fs c))));
                          App.total_records :=
                            Z.of_nat (length
                                        (get_minerals_by_country fs c)) |})).
  cbn [app]. split; [reflexivity|]. split; [reflexivity|]. split.
  - rewrite map_map. cbn [App.name]. apply map_id.
  - apply Forall_forall. intros e He. apply in_map_iff in He.
    destruct He as (c & <- & Hc). cbn [App.name App.mineral_count
      App.total_records]. split; [reflexivity|].
    unfold get_unique_countries in Hc.
    apply (proj1 (sorted_str_In _ _)) in Hc.
    apply in_map_iff in Hc. destruct Hc as (r & <- & Hr).
    assert (Hfound : In r (get_minerals_by_country fs (country r))).
    { unfold get_minerals_by_country. rewrite search_minerals_filter.
      apply filter_In. split; [exact Hr|].
      unfold Spec.accepts, Spec.field_accepts. cbn.
      now rewrite String.eqb_refl, orb_true_r. }
    set (found := get_minerals_by_country fs (country r)) in *.
    destruct (distinct_length (map mineral_name found)) as [Hle Hge].
    rewrite length_map in Hle.
    assert (Hne : map mineral_name found <> []).
    { destruct found; [contradiction | discriminate]. }
    specialize (Hge Hne). lia.
Qed.

(** X23. Whatever the mineral, known or not, the colour of its marker is
    a colour the legend has a hexadecimal code for, so the legend never
    falls back to its default code; the colour table and the price table
    list the same minerals; and a mineral outside the table gets "gray",
    the colour of natural graphite. *)
Theorem marker_colours_have_codes :
  (forall mineral,
     exists code,
       dict_get Visualization.color_map
         (Visualization.get_mineral_color mineral) = Some code
       /\ Visualization._get_folium_color
            (Visualization.get_mineral_color mineral) = code)
  /\ map fst Visualization.mineral_colors = map fst prices
  /\ (forall mineral,
        dict_get Visualization.mineral_colors mineral = None ->
        Visualization.get_mineral_color mineral
        = Visualization.get_mineral_color "Graphite (Natural)").
Proof.
  split; [|split; [reflexivity|]].
  - intros mineral. unfold Visualization.get_mineral_color.
    destruct (dict_get Visualization.mineral_colors mineral) as [c|] eqn:E.
    + apply dict_get_In in E. simpl in E.
      repeat (destruct E as [E|E]; [inversion E; subst; clear E|]);
        try contradiction; eexists; split; reflexivity.
    + eexists; split; reflexivity.
  - intros mineral H. unfold Visualization.get_mineral_color.
    now rewrite H.
Qed.

End RouteFacts.

(** ** The reserves chart *)

Section ReservesFacts.
Import PyStr PyDict Database Analytics.

Lemma nested_add_total (d : list (string * list (string * Z)))
  (k1 k2 : string) (v : Z) :
  py_sum (map (fun e => py_sum (map snd (snd e))) (nested_add d k1 k2 v))
  = py_sum (map (fun e => py_sum (map snd (snd e))) d) + v.
Proof.
  induction d as [|[k' inner] d IH]; cbn [nested_add map snd].
  - rewrite py_sum_cons. cbn. lia.
  - destruct (String.eqb k' k1); cbn [map snd]; rewrite !py_sum_cons.
    + rewrite py_sum_dict_add. lia.
    + rewrite IH. lia.
Qed.

Lemma nested_add_keys (d : list (string * list (string * Z)))
  (k1 k2 : string) (v : Z) :
  map fst (nested_add d k1 k2 v)
  = if existsb (String.eqb k1) (map fst d) then map fst d
    else map fst d ++ [k1].
Proof.
  induction d as [|[k' inner] d IH]; cbn [nested_add map fst existsb];
    [reflexivity|].
  rewrite (String.eqb_sym k1 k').
  destruct (String.eqb k' k1); cbn [orb map fst]; [reflexivity|].
  rewrite IH. now destruct (existsb (String.eqb k1) (map fst d)).
Qed.

Lemma nested_add_keys_NoDup (d : list (string * list (string * Z)))
  (k1 k2 : string) (v : Z) :
  NoDup (map fst d) -> NoDup (map fst (nested_add d k1 k2 v)).
Proof.
  intros H. rewrite nested_add_keys.
  destruct (existsb (String.eqb k1) (map fst d)) eqn:E; [exact H|].
  apply NoDup_app; [exact H | repeat constructor; intros [] |].
  intros a Ha [<-|[]]. apply existsb_eqb_In in Ha. congruence.
Qed.

(** X24. [generate_reserves_comparison] answers nothing for an empty list
    of countries; otherwise it gives one trace per mineral, no mineral
    twice, and what its bars add up to is the sum, over the countries as
    listed, of the reserves of the records found under each, so that a
    country listed twice is counted twice. *)
Theorem reserves_chart_total (fs : Files) (countries : list string) :
  match generate_reserves_comparison fs countries with
  | None => countries = []
  | Some traces =>
      countries <> []
      /\ NoDup (map (fun trace => fst (fst trace)) traces)
      /\ Forall (fun trace => length (snd (fst trace)) = length (snd trace))
                traces
      /\ Spec.chart_total traces
         = py_sum (map (fun c =>
                          py_sum (map reserves
                                      (get_minerals_by_country fs c)))
                       countries)
  end.
Proof.
  unfold generate_reserves_comparison.
  destruct countries as [|c0 cs]; [reflexivity|].
  set (countries := c0 :: cs).
  set (inner := fun (c : string) md (ms : list MineralRecord) =>
         fold_left (fun md m => nested_add md (mineral_name m) c (reserves m))
                   ms md).
  assert (Hin : forall c ms md,
            py_sum (map (fun e => py_sum (map snd (snd e))) (inner c md ms))
            = py_sum (map (fun e => py_sum (map snd (snd e))) md)
              + py_sum (map reserves ms)
            /\ (NoDup (map fst md) -> NoDup (map fst (inner c md ms)))).
  { intros c ms. induction ms as [|m ms IH]; intros md;
      unfold inner in *; cbn [fold_left map].
    - split; [change (py_sum []) with 0; lia | tauto].
    - destruct (IH (nested_add md (mineral_name m) c (reserves m)))
        as [IH1 IH2].
      split.
      + rewrite IH1, nested_add_total, py_sum_cons. lia.
      + intros H. now apply IH2, nested_add_keys_NoDup. }
  assert (Hout : forall l md,
            let out := fold_left
                         (fun md c => inner c md
                                        (get_minerals_by_country fs c)) l md in
            py_sum (map (fun e => py_sum (map snd (snd e))) out)
            = py_sum (map (fun e => py_sum (map snd (snd e))) md)
              + py_sum (map (fun c =>
                               py_sum (map reserves
                                           (get_minerals_by_country fs c))) l)
            /\ (NoDup (map fst md) -> NoDup (map fst out))).
  { induction l as [|c l IH]; intros md; cbv zeta; cbn [fold_left map].
    - split; [change (py_sum []) with 0; lia | tauto].
    - destruct (IH (inner c md (get_minerals_by_country fs c)))
        as [IH1 IH2].
      destruct (Hin c (get_minerals_by_country fs c) md) as [H1 H2].
      cbv zeta in IH1, IH2. split.
      + rewrite IH1, H1, py_sum_cons. lia.
      + intros H. now apply IH2, H2. }
  destruct (Hout countries []) as [Ht Hn]. cbv zeta in Ht, Hn.
  fold inner. split; [discriminate|]. split; [|split].
  - rewrite map_map. cbn [fst]. apply Hn. constructor.
  - apply Forall_forall. intros t Ht'. apply in_map_iff in Ht'.
    destruct Ht' as (e & <- & _). cbn [fst snd].
    now rewrite !length_map.
  - unfold Spec.chart_total. rewrite map_map.
    etransitivity; [|etransitivity; [exact Ht|]].
    + reflexivity.
    + change (py_sum (map _ [])) with 0. lia.
Qed.

End ReservesFacts.

(** ** The further properties at the sample data *)

Section MoreInstances.
Import PyStr PyDict Database Analytics.

Lemma search_ignores_case_witness :
  lower "COBALT" = lower "cobalt"
  /\ search_minerals Examples.cobalt_files
       (Some {| f_mineral_name := Some "COBALT"; f_country := None |})
     = search_minerals Examples.cobalt_files
         (Some {| f_mineral_name := Some "cobalt"; f_country := None |}).
Proof.
  split; [reflexivity|].
  apply (proj1 (search_ignores_case Examples.cobalt_files)). reflexivity.
Defined.

Lemma minerals_by_country_exact_witness :
  "zambia" <> ""
  /\ get_minerals_by_country Examples.cobalt_files "zambia"
     = filter (fun r => String.eqb (lower (country r)) (lower "zambia"))
              (get_all_minerals Examples.cobalt_files).
Proof.
  split; [discriminate|].
  apply (proj1 (proj2 (minerals_by_country_exact Examples.cobalt_files))).
  discriminate.
Defined.

Lemma top_producer_heads_ranking_witness :
  1 <= 10
  /\ get_summary_statistics Examples.cobalt_files
     = Some Examples.cobalt_stats
  /\ generate_top_producers Examples.cobalt_files 10
     = [("DRC", 130000); ("Zambia", 5000)]
  /\ Forall (fun x => snd x <= 130000)
            (Spec.groups (get_all_minerals Examples.cobalt_files)).
Proof.
  assert (H1 : 1 <= 10) by lia.
  assert (H2 : get_summary_statistics Examples.cobalt_files
               = Some Examples.cobalt_stats) by reflexivity.
  split; [exact H1|]. split; [exact H2|]. split; [reflexivity|].
  exact (proj2 (top_producer_heads_ranking Examples.cobalt_files 10
                  Examples.cobalt_stats H1 H2)).
Defined.

Lemma summary_totals_consistent_witness :
  count_countries Examples.cobalt_files <= 10
  /\ get_summary_statistics Examples.cobalt_files
     = Some Examples.cobalt_stats
  /\ py_sum (map snd (generate_top_producers Examples.cobalt_files 10))
     = 135000.
Proof.
  assert (H1 : count_countries Examples.cobalt_files <= 10)
    by (apply Z.leb_le; reflexivity).
  assert (H2 : get_summary_statistics Examples.cobalt_files
               = Some Examples.cobalt_stats) by reflexivity.
  split; [exact H1|]. split; [exact H2|].
  destruct (proj1 (summary_totals_consistent Examples.ids Examples.clock)
              Examples.cobalt_files 10 H1) as (_ & _ & _ & Ht).
  exact (Ht Examples.cobalt_stats H2).
Defined.

Lemma marker_colours_have_codes_witness :
  dict_get Visualization.mineral_colors "Tin" = None
  /\ Visualization.get_mineral_color "Tin"
     = Visualization.get_mineral_color "Graphite (Natural)".
Proof.
  split; [reflexivity|].
  apply (proj2 (proj2 marker_colours_have_codes)). reflexivity.
Defined.

End MoreInstances.

Section MoreAuthInstances.
Import PyStr PyDict Auth.

Lemma register_then_login_witness :
  success (fst (register Examples.digest Examples.ids Examples.clock
                  Examples.one_user 1
                  (Some "eve") (Some "secret") (Some "eve@example.com")
                  None)) = true
  /\ lower "EVE" = lower "eve"
  /\ login Examples.digest Examples.eve_registered
       (Some "EVE") (Some "secret")
     = {| success := true;
          message := "Login successful";
          user := Some {| i_id := Examples.ids 1;
                          i_username := "eve";
                          i_email := "eve@example.com";
                          i_role := "Researcher" |} |}.
Proof.
  split; [reflexivity|]. split; [reflexivity|].
  unfold Examples.eve_registered.
  apply (register_then_login Examples.digest Examples.ids Examples.clock
           Examples.one_user 1 "eve" "secret" "eve@example.com" "EVE" None);
    reflexivity.
Defined.

Lemma register_keeps_other_logins_witness :
  success (fst (register Examples.digest Examples.ids Examples.clock
                  Examples.one_user 1
                  (Some "eve") (Some "secret") (Some "eve@example.com")
                  None)) = true
  /\ login Examples.digest Examples.eve_registered
       (Some "admin") (Some "admin123")
     = login Examples.digest Examples.one_user
         (Some "admin") (Some "admin123").
Proof.
  assert (H : success (fst (register Examples.digest Examples.ids
                              Examples.clock Examples.one_user 1
                              (Some "eve") (Some "secret")
                              (Some "eve@example.com") None)) = true)
    by reflexivity.
  split; [exact H|].
  unfold Examples.eve_registered.
  apply (proj1 (proj2 (register_keeps_other_logins Examples.digest
                         Examples.ids Examples.clock Examples.one_user 1
                         "eve" (Some "secret") (Some "eve@example.com")
                         None H))).
  reflexivity.
Defined.

Lemma register_keeps_usernames_unique_witness :
  NoDup (map (fun u => lower (username u)) Examples.one_user)
  /\ NoDup (map (fun u => lower (username u)) Examples.eve_registered).
Proof.
  assert (H : NoDup (map (fun u => lower (username u)) Examples.one_user)).
  { repeat constructor. intros []. }
  split; [exact H|].
  unfold Examples.eve_registered.
  apply (register_keeps_usernames_unique Examples.digest Examples.ids
           Examples.clock). exact H.
Defined.

Lemma second_registration_refused_witness :
  success (fst (register Examples.digest Examples.ids Examples.clock
                  Examples.one_user 1
                  (Some "eve") (Some "secret") (Some "eve@example.com")
                  None)) = true
  /\ lower "Eve" = lower "eve"
  /\ register Examples.digest Examples.ids Examples.clock
       Examples.eve_registered 2
       (Some "Eve") (Some "other") (Some "other@example.com")
       (Some "Investor")
     = (failure "Username already exists", Examples.eve_registered).
Proof.
  split; [reflexivity|]. split; [reflexivity|].
  unfold Examples.eve_registered.
  apply (second_registration_refused Examples.digest Examples.ids
           Examples.clock Examples.one_user 1 2 "eve" "Eve"
           (Some "secret") (Some "eve@example.com") None
           (Some "other") (Some "other@example.com") (Some "Investor"));
    reflexivity.
Defined.

Lemma login_success_sound_witness :
  success (login Examples.digest Examples.one_user
             (Some "Admin") (Some "admin123")) = true
  /\ exists name secret u,
       Some "Admin" = Some name /\ Some "admin123" = Some secret
       /\ name <> "" /\ secret <> ""
       /\ In u Examples.one_user
       /\ lower (username u) = lower name
       /\ password u = Examples.digest secret
       /\ login Examples.digest Examples.one_user
            (Some "Admin") (Some "admin123")
          = {| success := true; message := "Login successful";
               user := Some {| i_id := id u; i_username := username u;
                               i_email := email u; i_role := role u |} |}.
Proof.
  split; [reflexivity|].
  apply (login_success_sound Examples.digest). reflexivity.
Defined.

Lemma check_permission_closed_witness :
  check_permission "Investor" "export_data" = true
  /\ In "Investor" Spec.known_roles.
Proof.
  assert (H : check_permission "Investor" "export_data" = true)
    by reflexivity.
  split; [exact H|].
  exact (proj1 check_permission_closed "Investor" "export_data" H).
Defined.

Lemma default_accounts_log_in_witness :
  In ("investor1", "investor123", "Investor")
     [ ("admin", "admin123", "Administrator");
       ("investor1", "investor123", "Investor");
       ("researcher1", "research123", "Researcher") ]
  /\ lower "Investor1" = "investor1"
  /\ exists info,
       login Examples.digest
         (ensure_file_exists Examples.digest Examples.ids Examples.clock None)
         (Some "Investor1") (Some "investor123")
       = {| success := true; message := "Login successful";
            user := Some info |}
       /\ i_username info = "investor1" /\ i_role info = "Investor".
Proof.
  assert (H : In ("investor1", "investor123", "Investor")
                [ ("admin", "admin123", "Administrator");
                  ("investor1", "investor123", "Investor");
                  ("researcher1", "research123", "Researcher") ])
    by (right; left; reflexivity).
  split; [exact H|]. split; [reflexivity|].
  apply (proj2 (proj2 (proj2 (proj2
           (default_accounts_log_in Examples.digest Examples.ids
              Examples.clock))))
           "investor1" "investor123" "Investor" H "Investor1").
  reflexivity.
Defined.

End MoreAuthInstances.
